(** * AgorAI climate profiler: [scripts/fetch_climate_data.py]

    A shallow embedding of the aggregation code of
    [src/scripts/fetch_climate_data.py] ([process_monthly_data],
    [_compute_variability], [_std] and the zone loop of [main]) and the
    properties its specification states about it.

    Number models.  The code is embedded twice.

    - In the first embedding Python floats are idealised as real numbers:
      [+], [-], [*], [/] are the exact operations, [** 0.5] is the real
      square root and [round(x, n)] rounds the exact value half-to-even at
      [n] decimals.  It carries the properties on which keys, years and
      documents the code produces, on which exception ends a computation,
      and on values that floats represent exactly.
    - In the second embedding, the module [Binary64], a float is an IEEE
      754 binary64 number with its infinities and [nan], the four
      operations round to nearest-even, [**] follows CPython's
      [float_pow] and raises [OverflowError] out of range.  What the
      interpreter and the C library supply ([sum] of floats, [pow],
      [round]) is a parameter of the code there; CPython's two summations
      and its decimal rounding are given as instances.  It carries the
      properties that depend on float arithmetic: the mean of a partial
      year, the standard deviation, the partial annual total.

    In both, whatever can raise in Python is kept fallible: a division
    raises [ZeroDivisionError] on a zero divisor, arithmetic on [None]
    raises [TypeError] with Python's message, [dict[key]] raises
    [KeyError], [min]/[max] of an empty list raise [ValueError]. *)

From Stdlib Require Import Floats Reals Lra Lia ZArith.
From stdpp Require Import base option list gmap strings pretty.

Set Warnings "-inexact-float".

Local Open Scope R_scope.

(** ** Exceptions and the error monad *)

Inductive exn : Type :=
  | KeyError (key : string)
  | TypeError (msg : string)
  | ZeroDivisionError
  | ValueError
  | OverflowError            (* a float [**] whose result is out of range *)
  | AttributeError (msg : string)
  | ComplexResult            (* a negative base under [** 0.5]: not a float *)
  | TransportError (msg : string).

Inductive result (A : Type) : Type :=
  | Ok (a : A)
  | Raise (e : exn).
Arguments Ok {A} a.
Arguments Raise {A} e.

Definition bind {A B} (k : A → result B) (r : result A) : result B :=
  match r with
  | Ok a => k a
  | Raise e => Raise e
  end.

(** stdpp's monad notation [x ← r; k] for [bind (fun x => k) r]. *)
#[global] Instance result_bind : MBind result := @bind.
#[global] Instance result_ret : MRet result := @Ok.

Definition is_ok {A} (r : result A) : Prop := ∃ a, r = Ok a.

(** [for x in xs: acc = step(acc, x)], stopping at the first exception. *)
Fixpoint foldM {A B} (step : B → A → result B) (acc : B) (xs : list A) : result B :=
  match xs with
  | [] => Ok acc
  | x :: rest => acc' ← step acc x ; foldM step acc' rest
  end.

(** ** JSON values of the raw record and Python dicts *)

(** An entry of [properties.parameter[PARAM]]: a JSON number or [null]. *)
Inductive jval : Type :=
  | JNull
  | JNum (r : R).

(** An insertion-ordered Python dict with string keys, as built by the
    output code: [d[k] = v] overwrites in place or appends. *)
Definition dict (V : Type) : Type := list (string * V).

Fixpoint dict_get {V} (k : string) (d : dict V) : option V :=
  match d with
  | [] => None
  | (k', v) :: rest => if decide (k' = k) then Some v else dict_get k rest
  end.

Fixpoint dict_set {V} (k : string) (v : V) (d : dict V) : dict V :=
  match d with
  | [] => [(k, v)]
  | (k', v') :: rest =>
      if decide (k' = k) then (k, v) :: rest else (k', v') :: dict_set k v rest
  end.

Definition dict_keys {V} (d : dict V) : list string := fst <$> d.

(** ** Floats *)

Definition floorR (x : R) : Z := (up x - 1)%Z.

(** Nearest integer, ties to the even one. *)
Definition round_half_even (x : R) : Z :=
  let f := floorR x in
  if Rlt_dec (x - IZR f) (1 / 2) then f
  else if Rlt_dec (1 / 2) (x - IZR f) then (f + 1)%Z
  else if Z.even f then f else (f + 1)%Z.

(** [round(x, ndigits)] *)
Definition py_round (x : R) (ndigits : nat) : R :=
  IZR (round_half_even (x * 10 ^ ndigits)) / 10 ^ ndigits.

(** [x / y] *)
Definition py_div (x y : R) : result R :=
  if Req_dec_T y 0 then Raise ZeroDivisionError else Ok (x / y).

(** [x ** 0.5] *)
Definition pow_half (x : R) : result R :=
  if Rlt_dec x 0 then Raise ComplexResult else Ok (sqrt x).

(** A list element used as an operand of float arithmetic; on [None] the
    operation raises [TypeError] with the text [msg]. *)
Definition num (msg : string) (v : jval) : result R :=
  match v with
  | JNum r => Ok r
  | JNull => Raise (TypeError msg)
  end.

(** The text of the [TypeError] of [left_operand + None]. *)
Definition add_none_msg (left_type : string) : string :=
  "unsupported operand type(s) for +: '" +:+ left_type +:+ "' and 'NoneType'".

(** [sum(values)]: starts from the int 0 and adds from the left; the running
    total is an int until the first element is added and a float after. *)
Definition py_sum (values : list jval) : result R :=
  _ ← match values with
      | v :: _ => num (add_none_msg "int") v
      | [] => Ok 0
      end ;
  foldM (fun acc v => x ← num (add_none_msg "float") v ; Ok (acc + x)) 0 values.

(** [sum(g(x - mean) for x in values)] for a float-valued [g]: on [None]
    the subtraction raises. *)
Definition py_sum_gen (g : R → R) (values : list jval) : result R :=
  foldM (fun acc v =>
           x ← num "unsupported operand type(s) for -: 'NoneType' and 'float'" v ;
           Ok (acc + g x)) 0 values.

(** [sum(v * d for v, d in zip(values, weights))] *)
Definition py_sum_zip (values : list jval) (weights : list R) : result R :=
  foldM (fun acc vd =>
           x ← num "unsupported operand type(s) for *: 'NoneType' and 'int'" vd.1 ;
           Ok (acc + x * vd.2)) 0 (zip values weights).

(** [min(values)] and [max(values)] *)
Definition py_min (values : list jval) : result R :=
  match values with
  | [] => Raise ValueError
  | v :: rest =>
      x ← num "'<' not supported between instances of 'float' and 'NoneType'" v ;
      foldM (fun acc w =>
               y ← num "'<' not supported between instances of 'NoneType' and 'float'" w ;
               Ok (if Rlt_dec y acc then y else acc)) x rest
  end.

Definition py_max (values : list jval) : result R :=
  match values with
  | [] => Raise ValueError
  | v :: rest =>
      x ← num "'>' not supported between instances of 'float' and 'NoneType'" v ;
      foldM (fun acc w =>
               y ← num "'>' not supported between instances of 'NoneType' and 'float'" w ;
               Ok (if Rlt_dec acc y then y else acc)) x rest
  end.

(** [len(values)] as a float operand *)
Definition len {A} (l : list A) : R := INR (length l).

(** [_std(values)]: the sample standard deviation. *)
Definition _std (values : list jval) : result R :=
  if (length values <? 2)%nat then Ok 0
  else
    s ← py_sum values ;
    mean ← py_div s (len values) ;
    sq ← py_sum_gen (fun x => (x - mean) ^ 2) values ;
    variance ← py_div sq (len values - 1) ;
    pow_half variance.

(** ** The raw record *)

Definition PARAMETERS : list string :=
  ["T2M"; "T2M_MAX"; "T2M_MIN"; "PRECTOTCORR"; "T2M_RANGE"; "RH2M"; "WS2M";
   "ALLSKY_SFC_SW_DWN"].

Definition MONTH_NAMES : list string :=
  ["Jan"; "Feb"; "Mar"; "Apr"; "May"; "Jun";
   "Jul"; "Aug"; "Sep"; "Oct"; "Nov"; "Dec"].

(** The table the three precipitation conversions each write out. *)
Definition days_per_month : list R :=
  [31; 28.25; 31; 30; 31; 30; 31; 31; 30; 31; 30; 31].

(** [range(start, stop)] *)
Definition py_range (start stop : Z) : list Z := seqZ start (stop - start).

(** [f"{n:02d}"] *)
Definition fmt02 (n : Z) : string :=
  if (0 <=? n)%Z && (n <? 10)%Z then "0" +:+ pretty n else pretty n.

(** [f"{year}{month:02d}"] *)
Definition period_key (year month : Z) : string := pretty year +:+ fmt02 month.

(** [series.get(key, -999)] *)
Definition get_or_sentinel (series : gmap string jval) (key : string) : jval :=
  default (JNum (-999)) (series !! key).

(** [val != -999] *)
Definition ne_sentinel (val : jval) : bool :=
  match val with
  | JNull => true
  | JNum r => if Req_dec_T r (-999) then false else true
  end.

(** [val is not None] *)
Definition is_not_none (val : jval) : bool :=
  match val with
  | JNull => false
  | JNum _ => true
  end.

(** [val != -999 and val is not None] *)
Definition is_present (val : jval) : bool := ne_sentinel val && is_not_none val.

(** The collecting loops: [for key in keys: val = series.get(key, -999);
    if test(val): values.append(val)]. *)
Fixpoint gather (test : jval → bool) (series : gmap string jval)
    (keys : list string) : list jval :=
  match keys with
  | [] => []
  | key :: rest =>
      let val := get_or_sentinel series key in
      if test val then val :: gather test series rest
      else gather test series rest
  end.

(** Keys of one calendar month over the years of the range. *)
Definition month_keys (month_num start_year end_year : Z) : list string :=
  (fun year => period_key year month_num) <$> py_range start_year (end_year + 1).

(** Keys of the twelve months of one year. *)
Definition year_keys (year : Z) : list string :=
  (fun month => period_key year month) <$> py_range 1 13.

(** ** Monthly climatology *)

Record month_stats : Type := MonthStats {
  ms_mean : R; ms_min : R; ms_max : R; ms_std : R; ms_n_years : nat }.

Definition month_values_step (params_data : gmap string (gmap string jval))
    (month_num start_year end_year : Z)
    (month_values : dict month_stats) (param : string) : result (dict month_stats) :=
  match params_data !! param with
  | None => Ok month_values
  | Some series =>
      let values := gather is_present series (month_keys month_num start_year end_year) in
      match values with
      | [] => Ok month_values
      | _ :: _ =>
          s ← py_sum values ;
          mean ← py_div s (len values) ;
          mn ← py_min values ;
          mx ← py_max values ;
          sd ← _std values ;
          Ok (dict_set param
                {| ms_mean := py_round mean 2; ms_min := py_round mn 2;
                   ms_max := py_round mx 2; ms_std := py_round sd 2;
                   ms_n_years := length values |} month_values)
      end
  end.

Definition month_values_of (params_data : gmap string (gmap string jval))
    (month_num start_year end_year : Z) : result (dict month_stats) :=
  foldM (month_values_step params_data month_num start_year end_year) [] PARAMETERS.

(** [enumerate(names)] *)
Definition enumerate {A} (l : list A) : list (Z * A) := imap (fun i x => (Z.of_nat i, x)) l.

Definition monthly_climatology (params_data : gmap string (gmap string jval))
    (start_year end_year : Z) : result (dict (dict month_stats)) :=
  foldM (fun monthly_clim im =>
           let month_num := (im.1 + 1)%Z in
           month_values ← month_values_of params_data month_num start_year end_year ;
           Ok (dict_set im.2 month_values monthly_clim))
        [] (enumerate MONTH_NAMES).

(** ** Annual summary *)

Record annual_stats : Type := AnnualStats {
  as_mean : R; as_min : R; as_max : R; as_std : R }.

(** The body of the year loop: what one year appends to [yearly_means]. *)
Definition annual_year_step (series : gmap string jval) (param : string)
    (yearly_means : list R) (year : Z) : result (list R) :=
  let year_vals := gather is_present series (year_keys year) in
  if (length year_vals =? 12)%nat then
    if decide (param = "PRECTOTCORR") then
      yearly_total ← py_sum_zip year_vals days_per_month ;
      Ok (yearly_means ++ [yearly_total])
    else
      s ← py_sum year_vals ;
      m ← py_div s 12 ;
      Ok (yearly_means ++ [m])
  else Ok yearly_means.

Definition annual_yearly_means (series : gmap string jval) (param : string)
    (start_year end_year : Z) : result (list R) :=
  foldM (annual_year_step series param) [] (py_range start_year (end_year + 1)).

Definition annual_label (param : string) : string :=
  if decide (param = "PRECTOTCORR") then param +:+ "_annual_total_mm"
  else param +:+ "_annual_mean".

Definition annual_step (params_data : gmap string (gmap string jval))
    (start_year end_year : Z)
    (annual : dict annual_stats) (param : string) : result (dict annual_stats) :=
  match params_data !! param with
  | None => Ok annual
  | Some series =>
      yearly_means ← annual_yearly_means series param start_year end_year ;
      match yearly_means with
      | [] => Ok annual
      | _ :: _ =>
          let ym := JNum <$> yearly_means in
          s ← py_sum ym ;
          mean ← py_div s (len ym) ;
          mn ← py_min ym ;
          mx ← py_max ym ;
          sd ← _std ym ;
          Ok (dict_set (annual_label param)
                {| as_mean := py_round mean 2; as_min := py_round mn 2;
                   as_max := py_round mx 2; as_std := py_round sd 2 |} annual)
      end
  end.

Definition annual_summary (params_data : gmap string (gmap string jval))
    (start_year end_year : Z) : result (dict annual_stats) :=
  foldM (annual_step params_data start_year end_year) [] PARAMETERS.

(** ** Year-by-year data *)

Definition year_record_step (params_data : gmap string (gmap string jval))
    (year : Z) (year_record : dict R) (param : string) : result (dict R) :=
  match params_data !! param with
  | None => Ok year_record
  | Some series =>
      let vals := gather is_present series (year_keys year) in
      match vals with
      | [] => Ok year_record
      | _ :: _ =>
          year_record' ←
            (if decide (param = "PRECTOTCORR") then
               total ← py_sum_zip vals days_per_month ;
               Ok (dict_set (param +:+ "_annual_total_mm") (py_round total 1) year_record)
             else Ok year_record) ;
          s ← py_sum vals ;
          m ← py_div s (len vals) ;
          Ok (dict_set (param +:+ "_monthly_mean") (py_round m 2) year_record')
      end
  end.

Definition year_record_of (params_data : gmap string (gmap string jval))
    (year : Z) : result (dict R) :=
  foldM (year_record_step params_data year) [] PARAMETERS.

Definition yearly_data_of (params_data : gmap string (gmap string jval))
    (start_year end_year : Z) : result (dict (dict R)) :=
  foldM (fun yearly_data year =>
           year_record ← year_record_of params_data year ;
           Ok (dict_set (pretty year) year_record yearly_data))
        [] (py_range start_year (end_year + 1)).

(** ** Variability metrics: [_compute_variability] *)

Record precip_var : Type := PrecipVar {
  cv : option R;
  drought_frequency : R;
  drought_threshold_mm : R;
  wet_frequency : R;
  wet_threshold_mm : R }.

Record temp_var : Type := TempVar {
  jan_mean_std : R;
  jul_mean_std : R;
  thermal_amplitude_mean : R }.

(** The dict [variability]: each of its two keys may be missing. *)
Record variability : Type := Variability {
  precipitation : option precip_var;
  temperature : option temp_var }.

Definition annual_precip_step (series : gmap string jval)
    (annual_precip : list R) (year : Z) : result (list R) :=
  let year_vals := gather is_present series (year_keys year) in
  if (length year_vals =? 12)%nat then
    total ← py_sum_zip year_vals days_per_month ;
    Ok (annual_precip ++ [total])
  else Ok annual_precip.

Definition annual_precip_of (series : gmap string jval)
    (start_year end_year : Z) : result (list R) :=
  foldM (annual_precip_step series) [] (py_range start_year (end_year + 1)).

Definition Rltb (x y : R) : bool := if Rlt_dec x y then true else false.

(** [sum(1 for p in l if test(p))] *)
Fixpoint count_where (test : R → bool) (l : list R) : nat :=
  match l with
  | [] => 0
  | p :: rest => if test p then S (count_where test rest) else count_where test rest
  end.

Definition drought_years_of (annual_precip : list R) (drought_threshold : R) : nat :=
  count_where (fun p => Rltb p drought_threshold) annual_precip.

Definition wet_years_of (annual_precip : list R) (wet_threshold : R) : nat :=
  count_where (fun p => Rltb wet_threshold p) annual_precip.

(** The body of [if annual_precip:]. *)
Definition precip_block (annual_precip : list R) : result precip_var :=
  let ap := JNum <$> annual_precip in
  s ← py_sum ap ;
  mean_p ← py_div s (len ap) ;
  std_p ← _std ap ;
  cv ← (if Rlt_dec 0 mean_p then q ← py_div std_p mean_p ; Ok (Some (py_round q 3))
        else Ok None) ;
  let drought_threshold := mean_p - std_p in
  let drought_years := drought_years_of annual_precip drought_threshold in
  dq ← py_div (INR drought_years) (len ap) ;
  let drought_freq := py_round dq 3 in
  let wet_threshold := mean_p + std_p in
  let wet_years := wet_years_of annual_precip wet_threshold in
  wq ← py_div (INR wet_years) (len ap) ;
  let wet_freq := py_round wq 3 in
  Ok {| cv := cv;
        drought_frequency := drought_freq;
        drought_threshold_mm := py_round drought_threshold 1;
        wet_frequency := wet_freq;
        wet_threshold_mm := py_round wet_threshold 1 |}.

Definition precip_variability (params_data : gmap string (gmap string jval))
    (start_year end_year : Z) : result (option precip_var) :=
  match params_data !! "PRECTOTCORR" with
  | None => Ok None
  | Some series =>
      annual_precip ← annual_precip_of series start_year end_year ;
      match annual_precip with
      | [] => Ok None
      | _ :: _ => b ← precip_block annual_precip ; Ok (Some b)
      end
  end.

(** Keys [f"{year}07"] and [f"{year}01"] over the years of the range.  The
    source fills [jul_temps] and [jan_temps] in one loop; the two lists do
    not depend on each other. *)
Definition fixed_month_keys (suffix : string) (start_year end_year : Z) : list string :=
  (fun year => pretty year +:+ suffix) <$> py_range start_year (end_year + 1).

Definition temp_variability (params_data : gmap string (gmap string jval))
    (start_year end_year : Z) : result (option temp_var) :=
  match params_data !! "T2M" with
  | None => Ok None
  | Some series =>
      let jul_temps :=
        gather ne_sentinel series (fixed_month_keys "07" start_year end_year) in
      let jan_temps :=
        gather ne_sentinel series (fixed_month_keys "01" start_year end_year) in
      match jul_temps, jan_temps with
      | _ :: _, _ :: _ =>
          jan_sd ← _std jan_temps ;
          jul_sd ← _std jul_temps ;
          sj ← py_sum jul_temps ;
          mj ← py_div sj (len jul_temps) ;
          sa ← py_sum jan_temps ;
          ma ← py_div sa (len jan_temps) ;
          Ok (Some {| jan_mean_std := py_round jan_sd 2;
                      jul_mean_std := py_round jul_sd 2;
                      thermal_amplitude_mean := py_round (mj - ma) 2 |})
      | _, _ => Ok None
      end
  end.

Definition _compute_variability (params_data : gmap string (gmap string jval))
    (start_year end_year : Z) : result variability :=
  p ← precip_variability params_data start_year end_year ;
  t ← temp_variability params_data start_year end_year ;
  Ok {| precipitation := p; temperature := t |}.

(** ** [process_monthly_data] *)

Record profile : Type := Profile {
  monthly_climatology_of : dict (dict month_stats);
  annual_summary_of : dict annual_stats;
  yearly_data : dict (dict R);
  variability_of : variability }.

(** [d[key]] *)
Definition getitem {V} (d : gmap string V) (key : string) : result V :=
  match d !! key with
  | Some v => Ok v
  | None => Raise (KeyError key)
  end.

(** The API response down to the period entries:
    [api_response["properties"]["parameter"][PARAM][PERIOD]]. *)
Definition process_monthly_data
    (api_response : gmap string (gmap string (gmap string (gmap string jval))))
    (start_year end_year : Z) : result profile :=
  properties ← getitem api_response "properties" ;
  params_data ← getitem properties "parameter" ;
  monthly_clim ← monthly_climatology params_data start_year end_year ;
  annual ← annual_summary params_data start_year end_year ;
  yearly ← yearly_data_of params_data start_year end_year ;
  var ← _compute_variability params_data start_year end_year ;
  Ok {| monthly_climatology_of := monthly_clim;
        annual_summary_of := annual;
        yearly_data := yearly;
        variability_of := var |}.

(** ** The zone loop of [main] *)

Record point : Type := Point { lat : R; lon : R; label : string }.

Record zone : Type := Zone { name : string; representative_point : point }.

(** Values of a zone document. *)
Inductive zone_value : Type :=
  | VStr (s : string)
  | VPoint (pt : point)
  | VProfile (p : profile).

(** [str(e)] *)
Definition str_exn (e : exn) : string :=
  match e with
  | KeyError key => "'" +:+ key +:+ "'"
  | TypeError msg => msg
  | ZeroDivisionError => "float division by zero"
  | ValueError => "min() arg is an empty sequence"
  | OverflowError => "(34, 'Numerical result out of range')"
  | AttributeError msg => msg
  | ComplexResult => "type complex doesn't define __round__ method"
  | TransportError msg => msg
  end.

Section ZoneLoop.
(** The fetch collaborator [fetch_nasa_power(lat, lon, start, end)]. *)
Variable fetch_nasa_power :
  R → R → Z → Z →
  result (gmap string (gmap string (gmap string (gmap string jval)))).
Variables start_year end_year : Z.

(** The [try] body of one zone. *)
Definition zone_try (pt : point) : result profile :=
  raw ← fetch_nasa_power (lat pt) (lon pt) start_year end_year ;
  process_monthly_data raw start_year end_year.

Definition zone_step (zones_out : dict (dict zone_value))
    (item : string * zone) : dict (dict zone_value) :=
  let zone_id := item.1 in
  let zone_data := item.2 in
  let pt := representative_point zone_data in
  match zone_try pt with
  | Ok profile =>
      dict_set zone_id
        [("zone_name", VStr (name zone_data));
         ("representative_point", VPoint pt);
         ("climate_profile", VProfile profile)] zones_out
  | Raise e =>
      dict_set zone_id
        [("zone_name", VStr (name zone_data));
         ("representative_point", VPoint pt);
         ("error", VStr (str_exn e))] zones_out
  end.

(** [for zone_id, zone_data in zones.items(): ...], from an empty
    [climate_profiles["zones"]]. *)
Definition main_zones (zones : dict zone) : dict (dict zone_value) :=
  foldl zone_step [] zones.
End ZoneLoop.

(** ** The quick summary at the end of [main] *)






(** ** Mathematical counterparts used in the statements *)

(** The sum of a list of reals. *)
Fixpoint sum_R (l : list R) : R :=
  match l with
  | [] => 0
  | x :: rest => x + sum_R rest
  end.

(** The arithmetic mean. *)
Definition mean_R (l : list R) : R := sum_R l / len l.

(** Bessel-corrected sample variance: squared deviations from the mean over
    [n - 1]. *)
Definition sample_variance (l : list R) : R :=
  sum_R ((fun x => (x - mean_R l) ^ 2) <$> l) / (len l - 1).

(** The number a present entry carries: [None] for a missing key, [null]
    and the sentinel. *)
Definition present_value (series : gmap string jval) (key : string) : option R :=
  match series !! key with
  | Some (JNum r) => if Req_dec_T r (-999) then None else Some r
  | _ => None
  end.

(** The total of 4.3 as its text reads: over the available months only,
    each month's value times the table entry of that same calendar month. *)
Definition calendar_weighted_total (series : gmap string jval) (year : Z) : R :=
  sum_R (zip_with
           (fun month days =>
              match present_value series (period_key year month) with
              | Some v => v * days
              | None => 0
              end)
           (seqZ 1 12) days_per_month).

(** The document [zone_step] stores for a zone. *)
Definition zone_document
    (fetch_nasa_power :
       R → R → Z → Z →
       result (gmap string (gmap string (gmap string (gmap string jval)))))
    (start_year end_year : Z) (zone_data : zone) : dict zone_value :=
  let pt := representative_point zone_data in
  match zone_try fetch_nasa_power start_year end_year pt with
  | Ok profile =>
      [("zone_name", VStr (name zone_data));
       ("representative_point", VPoint pt);
       ("climate_profile", VProfile profile)]
  | Raise e =>
      [("zone_name", VStr (name zone_data));
       ("representative_point", VPoint pt);
       ("error", VStr (str_exn e))]
  end.

(** The value a year contributes to the annual summary of a parameter: a
    year with twelve present values gives their day-weighted sum
    (precipitation) or their mean (any other parameter), any other year
    gives nothing. *)
Definition full_year_value (series : gmap string jval) (param : string)
    (year : Z) : option R :=
  let year_vals := omap (present_value series) (year_keys year) in
  if (length year_vals =? 12)%nat then
    Some (if decide (param = "PRECTOTCORR")
          then sum_R (zip_with Rmult year_vals days_per_month)
          else sum_R year_vals / 12)
  else None.

(** ** Sample records *)

(** A series that carries [v] in each of the months [first .. 12] of
    [year] and nothing else. *)
Definition months_from (first year : Z) (v : R) : gmap string jval :=
  list_to_map ((fun month => (period_key year month, JNum v)) <$> py_range first 13).

(** A precipitation record with a single entry, February 2021. *)
Definition february_only : gmap string jval := {[ "202102" := JNum 4 ]}.

Definition february_only_params : gmap string (gmap string jval) :=
  {[ "PRECTOTCORR" := february_only ]}.

(** Mean-temperature records for 2021 with July present and January
    [null], the sentinel, or not there. *)
Definition january_null : gmap string (gmap string jval) :=
  {[ "T2M" := <[ "202101" := JNull ]> {[ "202107" := JNum 25 ]} ]}.

Definition january_sentinel : gmap string (gmap string jval) :=
  {[ "T2M" := <[ "202101" := JNum (-999) ]> {[ "202107" := JNum 25 ]} ]}.

Definition january_absent : gmap string (gmap string jval) :=
  {[ "T2M" := {[ "202107" := JNum 25 ]} ]}.

(** A response wrapping a record. *)
Definition response_of (params_data : gmap string (gmap string jval))
    : gmap string (gmap string (gmap string (gmap string jval))) :=
  {[ "properties" := {[ "parameter" := params_data ]} ]}.

(** A two-zone registry and a fetch collaborator that fails south of
    latitude 32. *)
Definition sample_zones : dict zone :=
  [("zone_1", {| name := "Gharb"; representative_point := Point 34 (-6) "Kenitra" |});
   ("zone_2", {| name := "Souss"; representative_point := Point 30 (-9) "Agadir" |})].

Definition sample_fetch (lat lon : R) (start_year end_year : Z)
    : result (gmap string (gmap string (gmap string (gmap string jval)))) :=
  if Rlt_dec lat 32 then Raise (TransportError "timed out")
  else Ok (response_of {[ "T2M" := months_from 2 start_year 20 ]}).


Definition precipitation_full_year : gmap string (gmap string jval) :=
  {[ "PRECTOTCORR" := months_from 1 2021 1 ]}.

(** A fetch collaborator whose responses are empty objects. *)
Definition empty_fetch (lat lon : R) (start_year end_year : Z)
    : result (gmap string (gmap string (gmap string (gmap string jval)))) :=
  Ok ∅.

(** * The same code on binary64 floats *)

(** The aggregation code again, with Python's [float] as IEEE 754 binary64
    ([PrimFloat.float]): [+], [-], [*], [/] round to nearest-even, a sum can
    overflow to [inf], [inf - inf] is [nan], and [**] raises
    [OverflowError] when its result is out of range.  The parts of the
    record that carry no arithmetic ([period_key], [year_keys], [py_range],
    [PARAMETERS], the dicts) are the ones above. *)
Module Binary64.

Local Open Scope float_scope.

(** A value of a parameter's series after [json.loads]: [null] or a
    number, which may be [inf] or [nan] ([json] reads [Infinity] and
    [NaN]). *)
Inductive jval : Type :=
  | JNull
  | JNum (x : float).

(** A number of the script's own day-count table: the 31s and 30s are
    ints, February's 28.25 is a float. *)
Inductive pynum : Type :=
  | PyInt (n : Z)
  | PyFloat (x : float).

(** [float(n)] for an int within 63 bits. *)
Definition float_of_Z (n : Z) : float :=
  if (n <? 0)%Z then - of_uint63 (Uint63.of_Z (- n)) else of_uint63 (Uint63.of_Z n).

Definition float_of_nat (n : nat) : float := float_of_Z (Z.of_nat n).

Definition to_float (d : pynum) : float :=
  match d with
  | PyInt n => float_of_Z n
  | PyFloat x => x
  end.

Definition type_name (d : pynum) : string :=
  match d with
  | PyInt _ => "int"
  | PyFloat _ => "float"
  end.

(** [[f(x) for x in xs]], stopping at the first exception. *)
Fixpoint try_map {A B} (f : A → result B) (xs : list A) : result (list B) :=
  match xs with
  | [] => Ok []
  | x :: rest => y ← f x ; ys ← try_map f rest ; Ok (y :: ys)
  end.

(** ** What the interpreter and the C library compute *)

(** [sum] of floats in CPython up to 3.11: the int 0 plus the first item,
    then one rounded addition per item, from the left. *)
Definition sum_left (xs : list float) : float := fold_left PrimFloat.add xs 0.

(** [sum] of floats in CPython from 3.12 on: Neumaier's compensated
    summation.  [f] is the running total, [c] the running compensation,
    added at the end when it is non-zero and finite. *)
Fixpoint neumaier (f c : float) (xs : list float) : float :=
  match xs with
  | [] => if negb (c =? 0) && is_finite c then f + c else f
  | x :: rest =>
      let t := f + x in
      let c' := if abs x <=? abs f then c + ((f - t) + x) else c + ((x - t) + f) in
      neumaier t c' rest
  end.

Definition sum_compensated (xs : list float) : float :=
  match xs with
  | [] => 0
  | x :: rest => neumaier (0 + x) 0 rest
  end.

(** The integer nearest to [p / q], ties to the even one ([0 ≤ p], [0 < q]). *)
Definition nearest_even_quotient (p q : Z) : Z :=
  let (a, r) := Z.div_eucl p q in
  match (2 * r ?= q)%Z with
  | Lt => a
  | Gt => (a + 1)%Z
  | Eq => if Z.even a then a else (a + 1)%Z
  end.

(** The float nearest to [(-1)^s * p / q]. *)
Definition float_of_quotient (s : bool) (p q : positive) : float :=
  SF2Prim (SFdiv prec emax (S754_finite s p 0) (S754_finite false q 0)).

(** [round(x, ndigits)] for a float and [0 ≤ ndigits]: the exact value of
    [x] is rounded half-to-even at [ndigits] decimals and the float nearest
    to that decimal is returned; zeros, [inf] and [nan] round to
    themselves. *)
Definition round_decimal (x : float) (ndigits : nat) : float :=
  match Prim2SF x with
  | S754_finite s m e =>
      if (0 <=? e)%Z then x
      else
        let scale := (10 ^ Z.of_nat ndigits)%Z in
        match nearest_even_quotient (Z.pos m * scale) (2 ^ (- e)), scale with
        | Z.pos k, Z.pos d => float_of_quotient s k d
        | _, _ => if s then neg_zero else zero
        end
  | _ => x
  end.

(** A C library whose [pow] is correctly rounded at the two exponents the
    script uses. *)
Definition pow_rounded (x y : float) : float :=
  if y =? 2 then x * x else if y =? 0.5 then PrimFloat.sqrt x else nan.

Section Script.

(** The builtin [sum] on a non-empty list of floats, [pow] of the C library
    on a finite positive base other than 1, and [round(x, ndigits)]. *)
Variable float_sum : list float → float.
Variable libm_pow : float → float → float.
Variable float_round : float → nat → float.

(** ** Floats *)

(** A list element used as an operand of float arithmetic; on [None] the
    operation raises [TypeError] with the text [msg]. *)
Definition num (msg : string) (v : jval) : result float :=
  match v with
  | JNum x => Ok x
  | JNull => Raise (TypeError msg)
  end.

(** [sum(values)]: the running total is the int 0 until the first item is
    added and a float after. *)
Definition py_sum (values : list jval) : result float :=
  match values with
  | [] => Ok 0
  | v :: rest =>
      x ← num (add_none_msg "int") v ;
      xs ← try_map (num (add_none_msg "float")) rest ;
      Ok (float_sum (x :: xs))
  end.

(** [sum(term(x) for x in values)]: the terms are computed in order, the
    first exception ends the sum. *)
Definition py_sum_gen {A} (term : A → result float) (values : list A) : result float :=
  terms ← try_map term values ;
  Ok (float_sum terms).

(** [sum(v * d for v, d in zip(values, weights))] *)
Definition py_sum_zip (values : list jval) (weights : list pynum) : result float :=
  py_sum_gen (fun vd : jval * pynum =>
                x ← num ("unsupported operand type(s) for *: 'NoneType' and '"
                         +:+ type_name vd.2 +:+ "'") vd.1 ;
                Ok (x * to_float vd.2))
             (zip values weights).

(** [x / n] for a float [x] and an int [n ≥ 0] *)
Definition py_div_int (x : float) (n : nat) : result float :=
  if decide (n = 0%nat) then Raise ZeroDivisionError else Ok (x / float_of_nat n).

(** [v ** 2] for a float [v]: the int 2 becomes 2.0; [nan] gives [nan],
    an infinity gives [inf], a zero gives 0.0, a base of absolute value 1
    gives 1.0, and any other base goes to the C library's [pow] with its
    absolute value ([2.0] is an even integer), a result out of range
    raising [OverflowError]. *)
Definition pow_two (v : float) : result float :=
  if is_nan v then Ok v
  else if is_infinity v then Ok (abs v)
  else if v =? 0 then Ok 0
  else if abs v =? 1 then Ok 1
  else
    let ix := libm_pow (abs v) 2 in
    if is_infinity ix then Raise OverflowError else Ok ix.

(** [v ** 0.5] for a float [v]: [nan] gives [nan], an infinity gives
    [inf], a zero gives 0.0, a negative base gives a complex number, 1.0
    gives 1.0, and any other base goes to the C library's [pow]. *)
Definition pow_half (v : float) : result float :=
  if is_nan v then Ok v
  else if is_infinity v then Ok (abs v)
  else if v =? 0 then Ok 0
  else if v <? 0 then Raise ComplexResult
  else if v =? 1 then Ok 1
  else
    let ix := libm_pow v 0.5 in
    if is_infinity ix then Raise OverflowError else Ok ix.

(** [_std(values)]: the sample standard deviation. *)
Definition _std (values : list jval) : result float :=
  if (length values <? 2)%nat then Ok 0
  else
    s ← py_sum values ;
    mean ← py_div_int s (length values) ;
    sq ← py_sum_gen
           (fun v => x ← num "unsupported operand type(s) for -: 'NoneType' and 'float'" v ;
                     pow_two (x - mean))
           values ;
    variance ← py_div_int sq (length values - 1) ;
    pow_half variance.

(** ** The raw record *)

Definition days_per_month : list pynum :=
  [PyInt 31; PyFloat 28.25; PyInt 31; PyInt 30; PyInt 31; PyInt 30;
   PyInt 31; PyInt 31; PyInt 30; PyInt 31; PyInt 30; PyInt 31].

(** [series.get(key, -999)] *)
Definition get_or_sentinel (series : gmap string jval) (key : string) : jval :=
  default (JNum (-999)) (series !! key).

(** [val != -999]: [None] differs from every number, and so does [nan]. *)
Definition ne_sentinel (val : jval) : bool :=
  match val with
  | JNull => true
  | JNum x => negb (x =? -999)
  end.

(** [val is not None] *)
Definition is_not_none (val : jval) : bool :=
  match val with
  | JNull => false
  | JNum _ => true
  end.

(** [val != -999 and val is not None] *)
Definition is_present (val : jval) : bool := ne_sentinel val && is_not_none val.

(** The collecting loops: [for key in keys: val = series.get(key, -999);
    if test(val): values.append(val)]. *)
Fixpoint gather (test : jval → bool) (series : gmap string jval)
    (keys : list string) : list jval :=
  match keys with
  | [] => []
  | key :: rest =>
      let val := get_or_sentinel series key in
      if test val then val :: gather test series rest
      else gather test series rest
  end.

(** ** Annual summary: the year loop *)

(** The body of the year loop: what one year appends to [yearly_means]. *)
Definition annual_year_step (series : gmap string jval) (param : string)
    (yearly_means : list float) (year : Z) : result (list float) :=
  let year_vals := gather is_present series (year_keys year) in
  if (length year_vals =? 12)%nat then
    if decide (param = "PRECTOTCORR") then
      yearly_total ← py_sum_zip year_vals days_per_month ;
      Ok (yearly_means ++ [yearly_total])
    else
      s ← py_sum year_vals ;
      m ← py_div_int s 12 ;
      Ok (yearly_means ++ [m])
  else Ok yearly_means.

Definition annual_yearly_means (series : gmap string jval) (param : string)
    (start_year end_year : Z) : result (list float) :=
  foldM (annual_year_step series param) [] (py_range start_year (end_year + 1)).

(** ** Year-by-year data *)

Definition year_record_step (params_data : gmap string (gmap string jval))
    (year : Z) (year_record : dict float) (param : string) : result (dict float) :=
  match params_data !! param with
  | None => Ok year_record
  | Some series =>
      let vals := gather is_present series (year_keys year) in
      match vals with
      | [] => Ok year_record
      | _ :: _ =>
          year_record' ←
            (if decide (param = "PRECTOTCORR") then
               total ← py_sum_zip vals days_per_month ;
               Ok (dict_set (param +:+ "_annual_total_mm") (float_round total 1)
                     year_record)
             else Ok year_record) ;
          s ← py_sum vals ;
          m ← py_div_int s (length vals) ;
          Ok (dict_set (param +:+ "_monthly_mean") (float_round m 2) year_record')
      end
  end.

Definition year_record_of (params_data : gmap string (gmap string jval))
    (year : Z) : result (dict float) :=
  foldM (year_record_step params_data year) [] PARAMETERS.

Definition yearly_data_of (params_data : gmap string (gmap string jval))
    (start_year end_year : Z) : result (dict (dict float)) :=
  foldM (fun yearly_data year =>
           year_record ← year_record_of params_data year ;
           Ok (dict_set (pretty year) year_record yearly_data))
        [] (py_range start_year (end_year + 1)).

End Script.

(** ** Counterparts used in the statements *)

(** The number a present entry carries: [None] for a missing key, [null]
    and the sentinel. *)
Definition present_value (series : gmap string jval) (key : string) : option float :=
  match series !! key with
  | Some (JNum x) => if x =? -999 then None else Some x
  | _ => None
  end.

(** ** Sample records *)

(** A series that carries [v] in each of the months [first .. 12] of
    [year] and nothing else. *)
Definition months_from (first year : Z) (v : float) : gmap string jval :=
  list_to_map ((fun month => (period_key year month, JNum v)) <$> py_range first 13).

(** A series that carries [v] in each of the months [1 .. last] of [year]
    and nothing else. *)
Definition months_through (last year : Z) (v : float) : gmap string jval :=
  list_to_map ((fun month => (period_key year month, JNum v)) <$> py_range 1 (last + 1)).

End Binary64.

(** * Properties *)

(** ** The error monad *)

Lemma bind_Ok {A B} (a : A) (k : A → result B) : (x ← Ok a ; k x) = k a.
Proof. reflexivity. Qed.

Lemma foldM_app {A B} (step : B → A → result B) acc xs ys :
  foldM step acc (xs ++ ys) = (acc' ← foldM step acc xs ; foldM step acc' ys).
Proof.
  revert acc. induction xs as [|x xs IH]; intros acc; simpl; [done|].
  destruct (step acc x) as [acc'|e]; simpl; [apply IH | done].
Qed.

(** ** Arithmetic on lists of floats *)

Lemma len_pos {A} (x : A) l : 0 < len (x :: l).
Proof. unfold len. apply lt_0_INR. simpl. lia. Qed.

Lemma len_fmap {A B} (f : A → B) l : len (f <$> l) = len l.
Proof. unfold len. by rewrite length_fmap. Qed.

Lemma py_div_Ok x y : y ≠ 0 → py_div x y = Ok (x / y).
Proof. intros Hy. unfold py_div. destruct (Req_dec_T y 0); [lra | done]. Qed.

Lemma py_div_len {A} x (a : A) l : py_div x (len (a :: l)) = Ok (x / len (a :: l)).
Proof. apply py_div_Ok. pose proof (len_pos a l). lra. Qed.

Lemma foldM_sum_gen (msg : string) (g : R → R) acc xs :
  foldM (fun acc v => x ← num msg v ; Ok (acc + g x)) acc (JNum <$> xs)
  = Ok (acc + sum_R (g <$> xs)).
Proof.
  revert acc. induction xs as [|x xs IH]; intros acc; simpl.
  - f_equal. lra.
  - rewrite IH, Rplus_assoc. reflexivity.
Qed.

Lemma py_sum_gen_num g xs : py_sum_gen g (JNum <$> xs) = Ok (sum_R (g <$> xs)).
Proof. unfold py_sum_gen. rewrite foldM_sum_gen. f_equal. lra. Qed.

Lemma py_sum_num xs : py_sum (JNum <$> xs) = Ok (sum_R xs).
Proof.
  unfold py_sum.
  replace (match JNum <$> xs with
           | v :: _ => num (add_none_msg "int") v
           | [] => Ok 0
           end) with (Ok (match xs with x :: _ => x | [] => 0 end) : result R)
    by (by destruct xs).
  rewrite bind_Ok, (foldM_sum_gen _ (fun x => x)).
  rewrite list_fmap_id. f_equal. lra.
Qed.

Lemma foldM_sum_zip acc xs ws :
  foldM (fun acc (vd : jval * R) =>
           x ← num "unsupported operand type(s) for *: 'NoneType' and 'int'" vd.1 ;
           Ok (acc + x * vd.2)) acc
        (zip (JNum <$> xs) ws)
  = Ok (acc + sum_R (zip_with Rmult xs ws)).
Proof.
  revert acc ws. induction xs as [|x xs IH]; intros acc [|w ws]; simpl;
    try (f_equal; lra).
  rewrite IH. f_equal. lra.
Qed.

Lemma py_sum_zip_num xs ws :
  py_sum_zip (JNum <$> xs) ws = Ok (sum_R (zip_with Rmult xs ws)).
Proof. unfold py_sum_zip. rewrite foldM_sum_zip. f_equal. lra. Qed.

Lemma foldM_extremum (msg : string) (pick : R → R → R) acc xs :
  ∃ r, foldM (fun acc w => y ← num msg w ; Ok (pick y acc)) acc (JNum <$> xs) = Ok r.
Proof.
  revert acc. induction xs as [|x xs IH]; intros acc; simpl; [eauto|]. apply IH.
Qed.

Lemma py_min_num x xs : is_ok (py_min (JNum <$> x :: xs)).
Proof.
  unfold is_ok. simpl.
  apply (foldM_extremum _ (fun y acc => if Rlt_dec y acc then y else acc)).
Qed.

Lemma py_max_num x xs : is_ok (py_max (JNum <$> x :: xs)).
Proof.
  unfold is_ok. simpl.
  apply (foldM_extremum _ (fun y acc => if Rlt_dec acc y then y else acc)).
Qed.

Lemma sum_R_nonneg l : Forall (fun x => 0 <= x) l → 0 <= sum_R l.
Proof. induction 1; simpl; lra. Qed.

Lemma sum_sq_nonneg (m : R) l : 0 <= sum_R ((fun x => (x - m) ^ 2) <$> l).
Proof.
  apply sum_R_nonneg, Forall_fmap, Forall_true. intros x. simpl.
  apply pow2_ge_0.
Qed.

Lemma sample_variance_nonneg x y l : 0 <= sample_variance (x :: y :: l).
Proof.
  unfold sample_variance. apply Rmult_le_pos; [apply sum_sq_nonneg|].
  apply Rlt_le, Rinv_0_lt_compat.
  unfold len. simpl length. rewrite !S_INR. pose proof (pos_INR (length l)). lra.
Qed.

(** [_std] on two or more floats: the square root of the sample variance. *)
Lemma _std_num_ge2 x y l :
  _std (JNum <$> x :: y :: l) = Ok (sqrt (sample_variance (x :: y :: l))).
Proof.
  set (xs := x :: y :: l).
  assert (Hlen : (length (JNum <$> xs) <? 2)%nat = false).
  { apply Nat.ltb_ge. rewrite length_fmap. simpl. lia. }
  assert (Hn1 : len xs - 1 ≠ 0).
  { unfold len, xs. simpl length. rewrite !S_INR.
    pose proof (pos_INR (length l)). lra. }
  assert (Hn0 : len xs ≠ 0) by (pose proof (len_pos x (y :: l)); unfold xs; lra).
  unfold _std. rewrite Hlen, py_sum_num, len_fmap.
  rewrite bind_Ok, (py_div_Ok _ _ Hn0), bind_Ok, py_sum_gen_num, bind_Ok,
    (py_div_Ok _ _ Hn1), bind_Ok.
  unfold pow_half.
  pose proof (sample_variance_nonneg x y l) as Hv. fold xs in Hv.
  unfold sample_variance, mean_R in Hv.
  destruct (Rlt_dec _ 0) as [Hneg|_]; [lra|].
  reflexivity.
Qed.

Lemma _std_short values : (length values < 2)%nat → _std values = Ok 0.
Proof.
  intros H. unfold _std. by replace (length values <? 2)%nat with true
    by (symmetry; apply Nat.ltb_lt; lia).
Qed.

(** [_std] never fails on floats, and its value is never negative. *)
Lemma _std_num_total xs : ∃ s, _std (JNum <$> xs) = Ok s ∧ 0 <= s.
Proof.
  destruct xs as [|x [|y l]].
  - exists 0. split; [by apply _std_short; simpl; lia | lra].
  - exists 0. split; [by apply _std_short; simpl; lia | lra].
  - eexists. split; [apply _std_num_ge2 | apply sqrt_pos].
Qed.

(** ** Rounding *)

Lemma floorR_bounds x : IZR (floorR x) <= x < IZR (floorR x) + 1.
Proof.
  unfold floorR. rewrite minus_IZR. destruct (archimed x) as [H1 H2]. lra.
Qed.

Lemma round_half_even_near x k :
  IZR k - 1 / 2 < x < IZR k + 1 / 2 → round_half_even x = k.
Proof.
  intros [Hlo Hhi]. unfold round_half_even.
  pose proof (floorR_bounds x) as [Hf1 Hf2].
  set (f := floorR x) in *.
  assert (Hcases : f = (k - 1)%Z ∨ f = k).
  { assert (f < k + 1)%Z by (apply lt_IZR; rewrite plus_IZR; lra).
    assert (k - 2 < f)%Z by (apply lt_IZR; rewrite minus_IZR; lra).
    lia. }
  destruct Hcases as [-> | ->].
  - rewrite minus_IZR in *.
    destruct (Rlt_dec _ _) as [?|_]; [lra|].
    destruct (Rlt_dec _ _) as [_|?]; [f_equal; lia | lra].
  - destruct (Rlt_dec _ _) as [_|?]; [done | lra].
Qed.

Lemma pow10_pos n : 0 < 10 ^ n.
Proof. apply pow_lt. lra. Qed.

Lemma py_round_near x n k :
  IZR k - 1 / 2 < x * 10 ^ n < IZR k + 1 / 2 → py_round x n = IZR k / 10 ^ n.
Proof. intros H. unfold py_round. by rewrite (round_half_even_near _ k). Qed.

(** A value that already has at most [n] decimals is left as it is. *)
Lemma py_round_exact x n k : x * 10 ^ n = IZR k → py_round x n = x.
Proof.
  intros H. rewrite (py_round_near x n k) by lra.
  rewrite <- H. field. pose proof (pow10_pos n). lra.
Qed.

(** ** Counting years against a threshold *)


(** ** C10: drought and wet frequencies *)


(** ** C6: the worked precipitation example *)

Lemma sample_variance_example : sample_variance [100; 100; 100; 100; 500] = 32000.
Proof. unfold sample_variance, mean_R, len. simpl. field. Qed.

Lemma sqrt_32000_bounds : 178.85 < sqrt 32000 < 178.95.
Proof.
  assert (H0 : 0 <= sqrt 32000) by apply sqrt_pos.
  assert (H2 : sqrt 32000 * sqrt 32000 = 32000) by (apply sqrt_sqrt; lra).
  split; nra.
Qed.

(** C6.  On the annual totals [100, 100, 100, 100, 500] the mean is 180,
    the sample standard deviation rounds to 178.9, and the precipitation
    block holds drought_threshold_mm = 1.1, drought_frequency = 0.0,
    wet_threshold_mm = 358.9 and wet_frequency = 0.2. *)
Theorem C6_precipitation_example :
  let annual_precip := [100; 100; 100; 100; 500] in
  (s ← py_sum (JNum <$> annual_precip) ; py_div s (len annual_precip)) = Ok 180
  ∧ (∃ std_p, _std (JNum <$> annual_precip) = Ok std_p ∧ py_round std_p 1 = 178.9)
  ∧ ∃ b, precip_block annual_precip = Ok b
         ∧ drought_threshold_mm b = 1.1
         ∧ drought_frequency b = 0
         ∧ wet_threshold_mm b = 358.9
         ∧ wet_frequency b = 0.2.
Proof.
  intros annual_precip.
  pose proof sqrt_32000_bounds as Hs.
  assert (Hmean : py_div (sum_R annual_precip) (len annual_precip) = Ok 180).
  { unfold annual_precip. rewrite py_div_len. f_equal. unfold len. simpl. field. }
  assert (Hstd : _std (JNum <$> annual_precip) = Ok (sqrt 32000)).
  { unfold annual_precip. rewrite _std_num_ge2. by rewrite sample_variance_example. }
  split; [by rewrite py_sum_num, bind_Ok|]. split.
  { eexists. split; [done|]. rewrite (py_round_near _ 1 1789); simpl; lra. }
  unfold precip_block.
  rewrite len_fmap, py_sum_num, bind_Ok, Hmean, bind_Ok, Hstd, bind_Ok.
  destruct (Rlt_dec 0 180) as [_|?]; [|lra].
  rewrite (py_div_Ok (sqrt 32000) 180) by lra. rewrite !bind_Ok.
  assert (Hd : drought_years_of annual_precip (180 - sqrt 32000) = 0%nat).
  { unfold drought_years_of, annual_precip, Rltb. simpl.
    repeat (destruct (Rlt_dec _ _) as [?|_]; [lra|]). done. }
  assert (Hw : wet_years_of annual_precip (180 + sqrt 32000) = 1%nat).
  { unfold wet_years_of, annual_precip, Rltb. simpl.
    repeat (destruct (Rlt_dec _ _) as [?|_]; [lra|]).
    destruct (Rlt_dec _ _) as [_|?]; [done | lra]. }
  rewrite Hd, Hw. unfold annual_precip. rewrite !py_div_len, !bind_Ok.
  eexists. split; [reflexivity|]. simpl.
  split; [rewrite (py_round_near _ 1 11); simpl; lra|].
  split; [rewrite (py_round_exact _ 3 0); unfold len; simpl; lra|].
  split; [rewrite (py_round_near _ 1 3589); simpl; lra|].
  rewrite (py_round_exact _ 3 200); unfold len; simpl; lra.
Qed.

(** ** Loops and dicts *)

Lemma foldM_ext {A B} (f g : B → A → result B) acc xs :
  (∀ acc x, f acc x = g acc x) → foldM f acc xs = foldM g acc xs.
Proof.
  intros Hfg. revert acc. induction xs as [|x xs IH]; intros acc; simpl; [done|].
  rewrite Hfg. destruct (g acc x); simpl; [apply IH | done].
Qed.

(** A property every step keeps holds after the loop, and the loop does
    not raise. *)
Lemma foldM_invariant {A B} (step : B → A → result B) (P : B → Prop) xs acc :
  P acc →
  (∀ acc x, x ∈ xs → P acc → ∃ acc', step acc x = Ok acc' ∧ P acc') →
  ∃ out, foldM step acc xs = Ok out ∧ P out.
Proof.
  revert acc. induction xs as [|x xs IH]; intros acc Hacc Hstep; simpl; [eauto|].
  destruct (Hstep acc x) as (acc' & -> & Hacc'); [left | done |].
  simpl. apply IH; [done|]. intros a y Hy. apply Hstep. by right.
Qed.

(** A property that the step at [x] sets up and every step keeps. *)
Lemma foldM_establish {A B} (step : B → A → result B) (P : B → Prop) x xs acc :
  x ∈ xs →
  (∀ acc y, y ∈ xs →
     ∃ acc', step acc y = Ok acc' ∧ (P acc → P acc') ∧ (y = x → P acc')) →
  ∃ out, foldM step acc xs = Ok out ∧ P out.
Proof.
  intros Hx Hstep.
  assert (Hgen : x ∈ xs ∨ P acc) by by left. clear Hx.
  revert acc Hgen. induction xs as [|y xs IH]; intros acc Hgen; simpl.
  - destruct Hgen as [Hx|Hp]; [by apply elem_of_nil in Hx | eauto].
  - destruct (Hstep acc y) as (acc' & -> & Hkeep & Hset); [left|].
    simpl. apply IH.
    + intros a z Hz. apply Hstep. by right.
    + destruct Hgen as [Hx|Hp]; [|right; auto].
      apply elem_of_cons in Hx as [->|Hx]; [right; auto | by left].
Qed.

Lemma dict_get_set {V} k (v : V) d : dict_get k (dict_set k v d) = Some v.
Proof.
  induction d as [|[k' v'] d IH]; simpl.
  - by rewrite decide_True.
  - destruct (decide (k' = k)) as [->|Hne]; simpl.
    + by rewrite decide_True.
    + by rewrite decide_False.
Qed.

Lemma dict_get_set_ne {V} k k' (v : V) d :
  k ≠ k' → dict_get k' (dict_set k v d) = dict_get k' d.
Proof.
  intros Hne. induction d as [|[k0 v0] d IH]; simpl.
  - by rewrite decide_False.
  - destruct (decide (k0 = k)) as [->|Hne0]; simpl.
    + by rewrite !decide_False.
    + destruct (decide (k0 = k')); [done | apply IH].
Qed.


Lemma dict_keys_set_new {V} k (v : V) d :
  k ∉ dict_keys d → dict_keys (dict_set k v d) = dict_keys d ++ [k].
Proof.
  unfold dict_keys. induction d as [|[k' v'] d IH]; simpl; [done|].
  rewrite not_elem_of_cons. intros [Hne Hnin].
  rewrite decide_False by congruence. simpl. f_equal. by apply IH.
Qed.

(** ** The collecting loops *)

(** What the guarded loops collect are numbers: the present values, in key
    order. *)
Lemma gather_present series keys :
  gather is_present series keys = JNum <$> omap (present_value series) keys.
Proof.
  induction keys as [|key keys IH]; simpl; [done|].
  unfold get_or_sentinel, present_value, is_present at 1.
  destruct (series !! key) as [[|r]|]; simpl.
  - done.
  - destruct (Req_dec_T r (-999)); simpl; [done | by rewrite IH].
  - destruct (Req_dec_T (-999) (-999)); simpl; [done | lra].
Qed.



(** A partial map that is [Some (f x)] exactly on [P] is a filter
    followed by [f]. *)
Lemma omap_filter {A B} (g : A → option B) (f : A → B) (P : A → Prop)
    `{!∀ x, Decision (P x)} (l : list A) :
  (∀ x, x ∈ l → P x → g x = Some (f x)) →
  (∀ x, x ∈ l → ¬ P x → g x = None) →
  omap g l = f <$> filter P l.
Proof.
  induction l as [|x l IH]; intros Hyes Hno; [done|].
  rewrite filter_cons. simpl.
  assert (IH' : omap g l = f <$> filter P l).
  { apply IH; intros y Hy; [apply Hyes | apply Hno]; by right. }
  destruct (decide (P x)) as [Hp|Hp].
  - rewrite (Hyes x) by (done || left). rewrite fmap_cons. by f_equal.
  - rewrite (Hno x) by (done || left). done.
Qed.

Lemma omap_fmap_compose {A B C} (h : A → B) (g : B → option C) (l : list A) :
  omap g (h <$> l) = omap (g ∘ h) l.
Proof. induction l as [|x l IH]; csimpl; [done|]. by rewrite IH. Qed.

(** ** C5: the two lists of full-coverage precipitation totals *)

Lemma annual_precip_step_total series acc year :
  is_ok (annual_precip_step series acc year).
Proof.
  unfold annual_precip_step. rewrite gather_present.
  destruct (_ =? 12)%nat; [|by eexists].
  rewrite py_sum_zip_num. by eexists.
Qed.

(** C5.  Precipitation is one of the parameters the annual summary walks
    through, and for every series and year range the list of per-year
    totals the annual summary builds for it and the list the variability
    analysis builds are the same list (same values in the same order), both
    built without failure. *)
Theorem C5_precip_totals_agree :
  "PRECTOTCORR" ∈ PARAMETERS
  ∧ ∀ (series : gmap string jval) (start_year end_year : Z),
      annual_yearly_means series "PRECTOTCORR" start_year end_year
      = annual_precip_of series start_year end_year
      ∧ is_ok (annual_precip_of series start_year end_year).
Proof.
  split; [unfold PARAMETERS; set_solver|].
  intros series s e. split.
  - unfold annual_yearly_means, annual_precip_of. apply foldM_ext.
    intros acc year. unfold annual_year_step, annual_precip_step.
    by rewrite decide_True.
  - unfold annual_precip_of.
    destruct (foldM_invariant (annual_precip_step series) (fun _ => True)
                (py_range s (e + 1)) []) as (out & Hout & _); [done | | by exists out].
    intros acc year _ _.
    destruct (annual_precip_step_total series acc year) as [acc' ->]. eauto.
Qed.

(** ** Dict-building loops *)

(** [for y in xs: out[key(y)] = f(y)]: the entry of [x] in the result. *)
Lemma foldM_dict_build {A V} (f : A → result V) (key : A → string) xs x v acc :
  (∀ y, y ∈ xs → is_ok (f y)) →
  x ∈ xs →
  (∀ y, y ∈ xs → key y = key x → y = x) →
  f x = Ok v →
  ∃ out, foldM (fun acc y => w ← f y ; Ok (dict_set (key y) w acc)) acc xs = Ok out
         ∧ dict_get (key x) out = Some v.
Proof.
  intros Htot Hx Hkey Hfx.
  apply (foldM_establish _ (fun out => dict_get (key x) out = Some v) x); [done|].
  intros a y Hy. destruct (Htot y Hy) as [w Hw]. rewrite Hw. simpl.
  eexists. split; [done|].
  destruct (decide (key y = key x)) as [Heq|Hne].
  - assert (y = x) as -> by by apply Hkey.
    assert (w = v) as -> by congruence.
    split; intros _; apply dict_get_set.
  - split; [intros Ha; by rewrite dict_get_set_ne | intros ->; done].
Qed.

Lemma py_range_elem start stop k : k ∈ py_range start stop ↔ (start ≤ k < stop)%Z.
Proof. unfold py_range. rewrite elem_of_seqZ. lia. Qed.



(** ** C9: monthly climatology *)

Lemma month_values_step_spec pd month_num s e acc p :
  ∃ acc', month_values_step pd month_num s e acc p = Ok acc'
    ∧ (∀ k, k ≠ p → dict_get k acc' = dict_get k acc)
    ∧ ((∀ series, pd !! p = Some series →
          gather is_present series (month_keys month_num s e) = []) → acc' = acc).
Proof.
  unfold month_values_step. destruct (pd !! p) as [series|]; [|by eauto].
  rewrite gather_present.
  destruct (omap _ _) as [|x xs] eqn:E; [by eauto|].
  change (JNum <$> x :: xs) with (JNum x :: (JNum <$> xs)). cbv iota beta.
  change (JNum x :: (JNum <$> xs)) with (JNum <$> x :: xs).
  rewrite py_sum_num, bind_Ok, len_fmap, py_div_len, bind_Ok.
  destruct (py_min_num x xs) as [mn ->]. rewrite bind_Ok.
  destruct (py_max_num x xs) as [mx ->]. rewrite bind_Ok.
  destruct (_std_num_total (x :: xs)) as (sd & -> & _). rewrite bind_Ok.
  eexists. split; [done|]. split.
  - intros k Hk. by apply dict_get_set_ne.
  - intros H. specialize (H series eq_refl).
    rewrite gather_present, E in H. discriminate H.
Qed.

Lemma month_values_of_total pd month_num s e :
  is_ok (month_values_of pd month_num s e).
Proof.
  unfold month_values_of.
  destruct (foldM_invariant (month_values_step pd month_num s e) (fun _ => True)
              PARAMETERS []) as (out & Hout & _); [done | | by exists out].
  intros acc p _ _.
  destruct (month_values_step_spec pd month_num s e acc p) as (acc' & -> & _). eauto.
Qed.


(** ** Year records *)

(** Among the parameters processed, the keys a year record gets are
    pairwise different. *)
Lemma year_record_labels_fresh :
  Forall (fun p => Forall (fun q =>
      (q ≠ p → p +:+ "_monthly_mean" ≠ q +:+ "_monthly_mean"
               ∧ p +:+ "_annual_total_mm" ≠ q +:+ "_annual_total_mm")
      ∧ p +:+ "_monthly_mean" ≠ q +:+ "_annual_total_mm"
      ∧ p +:+ "_annual_total_mm" ≠ q +:+ "_monthly_mean") PARAMETERS) PARAMETERS.
Proof. unfold PARAMETERS. by apply (bool_decide_unpack _). Qed.

Lemma labels_fresh p q :
  p ∈ PARAMETERS → q ∈ PARAMETERS →
  (q ≠ p → p +:+ "_monthly_mean" ≠ q +:+ "_monthly_mean"
           ∧ p +:+ "_annual_total_mm" ≠ q +:+ "_annual_total_mm")
  ∧ p +:+ "_monthly_mean" ≠ q +:+ "_annual_total_mm"
  ∧ p +:+ "_annual_total_mm" ≠ q +:+ "_monthly_mean".
Proof.
  intros Hp Hq. pose proof year_record_labels_fresh as H.
  rewrite Forall_forall in H. specialize (H p Hp).
  rewrite Forall_forall in H. exact (H q Hq).
Qed.

Lemma year_record_step_spec pd year acc p :
  ∃ acc', year_record_step pd year acc p = Ok acc'
    ∧ (∀ k, k ≠ p +:+ "_monthly_mean" → k ≠ p +:+ "_annual_total_mm" →
         dict_get k acc' = dict_get k acc)
    ∧ (∀ series x xs,
         pd !! p = Some series →
         omap (present_value series) (year_keys year) = x :: xs →
         dict_get (p +:+ "_monthly_mean") acc'
         = Some (py_round (sum_R (x :: xs) / len (x :: xs)) 2)
         ∧ (p = "PRECTOTCORR" →
            p +:+ "_annual_total_mm" ≠ p +:+ "_monthly_mean" →
            dict_get (p +:+ "_annual_total_mm") acc'
            = Some (py_round (sum_R (zip_with Rmult (x :: xs) days_per_month)) 1))).
Proof.
  unfold year_record_step. destruct (pd !! p) as [series|].
  2:{ exists acc. split; [done|]. split; [done|]. intros ??? [=]. }
  rewrite gather_present.
  destruct (omap _ _) as [|x xs] eqn:E.
  { exists acc. split; [done|]. split; [done|]. intros s' x xs [= <-]. by rewrite E. }
  change (JNum <$> x :: xs) with (JNum x :: (JNum <$> xs)). cbv iota beta.
  change (JNum x :: (JNum <$> xs)) with (JNum <$> x :: xs).
  rewrite len_fmap.
  destruct (decide (p = "PRECTOTCORR")) as [Hp|Hp];
    rewrite ?py_sum_zip_num, ?bind_Ok, py_sum_num, bind_Ok, py_div_len, bind_Ok.
  - eexists. split; [done|]. split.
    + intros k Hk1 Hk2. by rewrite !dict_get_set_ne.
    + intros s' x' xs' [= <-]. rewrite E. intros [= <- <-].
      split; [apply dict_get_set|]. intros _ Hne.
      rewrite dict_get_set_ne by congruence. apply dict_get_set.
  - eexists. split; [done|]. split.
    + intros k Hk1 Hk2. by rewrite dict_get_set_ne.
    + intros s' x' xs' [= <-]. rewrite E. intros [= <- <-].
      split; [apply dict_get_set | done].
Qed.

Lemma year_record_of_total pd year : is_ok (year_record_of pd year).
Proof.
  unfold year_record_of.
  destruct (foldM_invariant (year_record_step pd year) (fun _ => True)
              PARAMETERS []) as (out & Hout & _); [done | | by exists out].
  intros acc p _ _.
  destruct (year_record_step_spec pd year acc p) as (acc' & -> & _). eauto.
Qed.

(** The monthly mean a year record holds for a processed parameter with at
    least one present month: the mean of the present values. *)
Lemma year_record_monthly_mean pd year param series x xs :
  param ∈ PARAMETERS →
  pd !! param = Some series →
  omap (present_value series) (year_keys year) = x :: xs →
  ∃ rec, year_record_of pd year = Ok rec
    ∧ dict_get (param +:+ "_monthly_mean") rec
      = Some (py_round (sum_R (x :: xs) / len (x :: xs)) 2).
Proof.
  intros Hin Hpd Hvals. unfold year_record_of.
  apply (foldM_establish _ _ param); [done|].
  intros acc q Hq.
  destruct (year_record_step_spec pd year acc q) as (acc' & -> & Hkeep & Hset).
  exists acc'. split; [done|]. split.
  - intros Hacc. destruct (decide (q = param)) as [->|Hne].
    + by apply (Hset series x xs).
    + destruct (labels_fresh param q Hin Hq) as (H1 & H2 & _).
      rewrite Hkeep; [done | by apply H1 | done].
  - intros ->. by apply (Hset series x xs).
Qed.

(** The annual total a year record holds for precipitation: the present
    values, in month order, each multiplied by the table entry at its
    position in the list of present values. *)
Lemma year_record_annual_total pd year series x xs :
  pd !! "PRECTOTCORR" = Some series →
  omap (present_value series) (year_keys year) = x :: xs →
  ∃ rec, year_record_of pd year = Ok rec
    ∧ dict_get "PRECTOTCORR_annual_total_mm" rec
      = Some (py_round (sum_R (zip_with Rmult (x :: xs) days_per_month)) 1).
Proof.
  intros Hpd Hvals. unfold year_record_of.
  assert (Hin : "PRECTOTCORR" ∈ PARAMETERS) by (unfold PARAMETERS; set_solver).
  apply (foldM_establish _ _ "PRECTOTCORR"); [done|].
  intros acc q Hq.
  destruct (year_record_step_spec pd year acc q) as (acc' & -> & Hkeep & Hset).
  exists acc'. split; [done|].
  assert (Hhere : q = "PRECTOTCORR" →
    dict_get "PRECTOTCORR_annual_total_mm" acc'
    = Some (py_round (sum_R (zip_with Rmult (x :: xs) days_per_month)) 1)).
  { intros ->. by apply (Hset series x xs). }
  split; [|done].
  intros Hacc. destruct (decide (q = "PRECTOTCORR")) as [Heq|Hne]; [auto|].
  destruct (labels_fresh "PRECTOTCORR" q Hin Hq) as (H1 & _ & H3).
  rewrite Hkeep; [done | apply H3 | by apply H1].
Qed.

Lemma yearly_data_lookup pd start_year end_year year rec :
  (start_year ≤ year ≤ end_year)%Z →
  year_record_of pd year = Ok rec →
  ∃ yd, yearly_data_of pd start_year end_year = Ok yd
        ∧ dict_get (pretty year) yd = Some rec.
Proof.
  intros Hyear Hrec. unfold yearly_data_of.
  apply (foldM_dict_build (year_record_of pd) pretty).
  - intros y _. apply year_record_of_total.
  - apply py_range_elem. lia.
  - intros y _ Heq. by apply (inj pretty).
  - done.
Qed.

(** ** Years of a range, months of a year *)

Lemma py_range_split start stop k :
  (start ≤ k < stop)%Z →
  py_range start stop = py_range start k ++ k :: py_range (k + 1) stop.
Proof.
  intros Hk. unfold py_range.
  replace (stop - start)%Z with ((k - start) + (stop - k))%Z by lia.
  rewrite seqZ_app by lia. f_equal.
  replace (start + (k - start))%Z with k by lia.
  rewrite seqZ_cons by lia. f_equal. f_equal; lia.
Qed.

(** The values collected for a year whose present months are those
    satisfying [P], month [m] carrying the number [f m]. *)
Lemma year_values_where (P : Z → Prop) `{!∀ m, Decision (P m)}
    series year (f : Z → R) :
  (∀ m, (1 ≤ m ≤ 12)%Z → P m →
        series !! period_key year m = Some (JNum (f m)) ∧ f m ≠ -999) →
  (∀ m, (1 ≤ m ≤ 12)%Z → ¬ P m →
        present_value series (period_key year m) = None) →
  omap (present_value series) (year_keys year) = f <$> filter P (seqZ 1 12).
Proof.
  intros Hpres Hmiss. unfold year_keys, py_range.
  change (13 - 1)%Z with 12%Z. rewrite omap_fmap_compose.
  apply omap_filter.
  - intros m Hm HP. apply elem_of_seqZ in Hm.
    destruct (Hpres m) as [Hlook Hval]; [lia | done |].
    simpl. unfold present_value. rewrite Hlook.
    by destruct (Req_dec_T (f m) (-999)).
  - intros m Hm HP. apply elem_of_seqZ in Hm. simpl. apply Hmiss; [lia | done].
Qed.

Lemma twelve_cases (m : Z) :
  (1 ≤ m ≤ 12)%Z →
  (m = 1 ∨ m = 2 ∨ m = 3 ∨ m = 4 ∨ m = 5 ∨ m = 6 ∨ m = 7 ∨ m = 8
   ∨ m = 9 ∨ m = 10 ∨ m = 11 ∨ m = 12)%Z.
Proof. lia. Qed.

Lemma eleven_of_twelve (m0 : Z) :
  (1 ≤ m0 ≤ 12)%Z → length (filter (fun m => m ≠ m0) (seqZ 1 12)) = 11%nat.
Proof.
  intros Hc%twelve_cases.
  repeat destruct Hc as [->|Hc]; try subst m0; reflexivity.
Qed.

(** ** C2: constant precipitation of 1 mm/day *)

Lemma days_per_month_sum : sum_R days_per_month = 365.25.
Proof. unfold days_per_month. simpl. lra. Qed.

Lemma constant_one_year_total (series : gmap string jval) (year : Z) :
  (∀ m, (1 ≤ m ≤ 12)%Z → series !! period_key year m = Some (JNum 1)) →
  (∀ yearly_means,
     annual_year_step series "PRECTOTCORR" yearly_means year
     = Ok (yearly_means ++ [sum_R days_per_month]))
  ∧ annual_yearly_means series "PRECTOTCORR" year year = Ok [sum_R days_per_month].
Proof.
  intros Hall.
  assert (Hvals : omap (present_value series) (year_keys year)
                  = (fun _ => 1) <$> filter (fun _ => True) (seqZ 1 12)).
  { apply (year_values_where (fun _ => True)); [|tauto].
    intros m Hm _. split; [by apply Hall | lra]. }
  assert (Hstep : ∀ acc, annual_year_step series "PRECTOTCORR" acc year
                         = Ok (acc ++ [sum_R days_per_month])).
  { intros acc. unfold annual_year_step. rewrite gather_present, Hvals.
    rewrite decide_True by done. rewrite py_sum_zip_num.
    change (length _ =? 12)%nat with true. cbv iota. rewrite bind_Ok.
    do 3 f_equal. unfold days_per_month. simpl. lra. }
  split; [done|].
  unfold annual_yearly_means, py_range.
  replace (year + 1 - year)%Z with 1%Z by lia.
  rewrite seqZ_cons by lia. simpl. rewrite Hstep. done.
Qed.

(** C2 (amended).  For a year whose twelve precipitation entries are all
    exactly 1.0, the annual summary's year step appends the sum of the
    twelve-entry day-count table, and that sum is 365.25 (February counts
    28.25 days), not 365.0. *)
Theorem C2_constant_precipitation_total (series : gmap string jval) (year : Z) :
  (∀ m, (1 ≤ m ≤ 12)%Z → series !! period_key year m = Some (JNum 1)) →
  (∀ yearly_means,
     annual_year_step series "PRECTOTCORR" yearly_means year
     = Ok (yearly_means ++ [sum_R days_per_month]))
  ∧ annual_yearly_means series "PRECTOTCORR" year year = Ok [sum_R days_per_month]
  ∧ sum_R days_per_month = 365.25.
Proof.
  intros Hall. destruct (constant_one_year_total series year Hall) as [H1 H2].
  split; [done|]. split; [done | apply days_per_month_sum].
Qed.

Lemma months_from_lookup (first year m : Z) (v : R) :
  (first ≤ m ≤ 12)%Z → months_from first year v !! period_key year m = Some (JNum v).
Proof.
  intros Hm. unfold months_from.
  apply (elem_of_list_to_map_1' (M := gmap string)).
  - intros y Hy. apply list_elem_of_fmap in Hy as (m' & [= Hkey ->] & _). done.
  - apply list_elem_of_fmap. exists m. split; [done|]. apply py_range_elem. lia.
Qed.

(** C2, as stated, fails: the total the code computes for twelve months of
    1.0 mm/day is 365.25, the sum of the table, and not 365.0. *)
Lemma C2_total_is_not_365 :
  annual_yearly_means (months_from 1 2021 1) "PRECTOTCORR" 2021 2021 = Ok [365.25]
  ∧ annual_yearly_means (months_from 1 2021 1) "PRECTOTCORR" 2021 2021 ≠ Ok [365]
  ∧ sum_R days_per_month ≠ 365.
Proof.
  assert (H : annual_yearly_means (months_from 1 2021 1) "PRECTOTCORR" 2021 2021
              = Ok [365.25]).
  { destruct (constant_one_year_total (months_from 1 2021 1) 2021)
      as (_ & H); [intros m Hm; by apply months_from_lookup|].
    by rewrite H, days_per_month_sum. }
  split; [done|]. split.
  - rewrite H. intros [= Heq]. lra.
  - rewrite days_per_month_sum. lra.
Qed.

Lemma C2_constant_precipitation_total_witness :
  (∀ m, (1 ≤ m ≤ 12)%Z →
        months_from 1 2021 1 !! period_key 2021 m = Some (JNum 1))
  ∧ annual_yearly_means (months_from 1 2021 1) "PRECTOTCORR" 2021 2021
    = Ok [sum_R days_per_month].
Proof.
  split.
  - intros m Hm. by apply months_from_lookup.
  - apply (C2_constant_precipitation_total (months_from 1 2021 1) 2021).
    intros m Hm. by apply months_from_lookup.
Defined.

(** ** C3: the partial annual total of the yearly series *)

Lemma february_only_present :
  present_value february_only (period_key 2021 2) = Some 4.
Proof.
  unfold present_value.
  replace (february_only !! period_key 2021 2) with (Some (JNum 4)) by reflexivity.
  destruct (Req_dec_T 4 (-999)); [lra | done].
Qed.

Lemma february_only_missing (m : Z) :
  (1 ≤ m ≤ 12)%Z → m ≠ 2%Z →
  present_value february_only (period_key 2021 m) = None.
Proof.
  intros Hc%twelve_cases Hne.
  repeat destruct Hc as [->|Hc]; try subst m; try done; reflexivity.
Qed.

(** C3 at a failing input.  With February 2021 as the only precipitation
    entry (4 mm/day), the yearly series emits 124.0 as the year's annual
    total: February's value multiplied by 31, the table entry of January,
    the position the value has in the list of available values.  The total
    as 4.3 words it, February's value times February's 28.25 days, is
    113.0. *)
Theorem C3_partial_total_misaligned :
  ∃ yearly year_record,
    yearly_data_of february_only_params 2021 2021 = Ok yearly
    ∧ dict_get "2021" yearly = Some year_record
    ∧ dict_get "PRECTOTCORR_annual_total_mm" year_record = Some 124
    ∧ py_round (calendar_weighted_total february_only 2021) 1 = 113.
Proof.
  assert (Hvals : omap (present_value february_only) (year_keys 2021) = [4]).
  { rewrite (year_values_where (fun m => m = 2%Z) february_only 2021 (fun _ => 4)).
    - reflexivity.
    - intros m _ ->. split; [reflexivity | lra].
    - apply february_only_missing. }
  destruct (year_record_annual_total february_only_params 2021 february_only 4 [])
    as (rec & Hrec & Hget); [reflexivity | done |].
  destruct (yearly_data_lookup february_only_params 2021 2021 2021 rec)
    as (yd & Hyd & Hlook); [lia | done |].
  exists yd, rec. split; [done|]. split; [exact Hlook|]. split.
  - rewrite Hget. f_equal.
    replace (sum_R _) with 124 by (unfold days_per_month; simpl; lra).
    apply (py_round_exact _ 1 1240). simpl. lra.
  - unfold calendar_weighted_total.
    change (seqZ 1 12) with [1; 2; 3; 4; 5; 6; 7; 8; 9; 10; 11; 12]%Z.
    unfold days_per_month. cbn [zip_with sum_R].
    rewrite february_only_present, !february_only_missing by lia.
    match goal with |- py_round ?x 1 = _ => replace x with 113 by lra end.
    apply (py_round_exact _ 1 1130). simpl. lra.
Qed.

(** ** The first three aggregations never raise *)

Lemma foldM_total {A B} (step : B → A → result B) acc xs :
  (∀ acc x, is_ok (step acc x)) → is_ok (foldM step acc xs).
Proof.
  intros Hstep.
  destruct (foldM_invariant step (fun _ => True) xs acc) as (out & Hout & _);
    [done | | by exists out].
  intros a x _ _. destruct (Hstep a x) as [a' ->]. eauto.
Qed.

Lemma monthly_climatology_total pd s e : is_ok (monthly_climatology pd s e).
Proof.
  unfold monthly_climatology. apply foldM_total. intros acc im.
  destruct (month_values_of_total pd (im.1 + 1) s e) as [mv Hmv].
  rewrite Hmv. by eexists.
Qed.

Lemma annual_yearly_means_total series param s e :
  is_ok (annual_yearly_means series param s e).
Proof.
  unfold annual_yearly_means. apply foldM_total. intros acc year.
  unfold annual_year_step. rewrite gather_present.
  destruct (_ =? 12)%nat; [|by eexists].
  destruct (decide (param = "PRECTOTCORR")).
  - rewrite py_sum_zip_num. by eexists.
  - rewrite py_sum_num, bind_Ok, py_div_Ok by lra. by eexists.
Qed.

Lemma annual_summary_total pd s e : is_ok (annual_summary pd s e).
Proof.
  unfold annual_summary. apply foldM_total. intros acc param.
  unfold annual_step. destruct (pd !! param) as [series|]; [|by eexists].
  destruct (annual_yearly_means_total series param s e) as [[|x xs] ->];
    [by eexists|].
  rewrite bind_Ok. cbv iota beta zeta.
  rewrite py_sum_num, bind_Ok, len_fmap, py_div_len, bind_Ok.
  destruct (py_min_num x xs) as [mn ->]. rewrite bind_Ok.
  destruct (py_max_num x xs) as [mx ->]. rewrite bind_Ok.
  destruct (_std_num_total (x :: xs)) as (sd & -> & _). by eexists.
Qed.

Lemma yearly_data_of_total pd s e : is_ok (yearly_data_of pd s e).
Proof.
  unfold yearly_data_of. apply foldM_total. intros acc year.
  destruct (year_record_of_total pd year) as [rec ->]. by eexists.
Qed.

(** An exception of [_compute_variability] ends [process_monthly_data]. *)
Lemma process_monthly_data_variability_raises pd s e err :
  _compute_variability pd s e = Raise err →
  process_monthly_data (response_of pd) s e = Raise err.
Proof.
  intros Hvar. unfold process_monthly_data, response_of, getitem.
  rewrite lookup_singleton_eq, bind_Ok, lookup_singleton_eq, bind_Ok.
  destruct (monthly_climatology_total pd s e) as [mc ->].
  destruct (annual_summary_total pd s e) as [an ->].
  destruct (yearly_data_of_total pd s e) as [yd ->].
  by rewrite !bind_Ok, Hvar.
Qed.

(** ** C4: [null] entries *)

Lemma omap_pointwise {A B} (f g : A → option B) (l : list A) :
  (∀ x, f x = g x) → omap f l = omap g l.
Proof. intros H. induction l as [|x l IH]; csimpl; [done|]. by rewrite H, IH. Qed.

(** In the loops guarded by [val != -999 and val is not None], a [null]
    entry and a sentinel entry are collected exactly like a missing key. *)
Lemma gather_present_null_sentinel_absent series key keys :
  gather is_present (<[key := JNull]> series) keys
  = gather is_present (delete key series) keys
  ∧ gather is_present (<[key := JNum (-999)]> series) keys
    = gather is_present (delete key series) keys.
Proof.
  rewrite !gather_present.
  split; f_equal; apply omap_pointwise; intros k; unfold present_value;
    destruct (decide (key = k)) as [->|Hne];
    rewrite ?lookup_insert_eq, ?lookup_delete_eq, ?lookup_insert_ne, ?lookup_delete_ne
      by done; try done.
  destruct (Req_dec_T (-999) (-999)); [done | lra].
Qed.

Lemma ne_sentinel_num r : r ≠ -999 → ne_sentinel (JNum r) = true.
Proof. intros H. unfold ne_sentinel. by destruct (Req_dec_T r (-999)). Qed.

Lemma ne_sentinel_sentinel : ne_sentinel (JNum (-999)) = false.
Proof. unfold ne_sentinel. destruct (Req_dec_T (-999) (-999)); [done | lra]. Qed.

(** C4 at a failing input.  The guarded loops treat [null], the sentinel
    and a missing key alike.  The temperature sub-analysis does not: with
    July 2021 present, a January entry that is the sentinel or missing
    leaves the temperature block out, while a [null] January entry is
    collected and the block's arithmetic raises [TypeError], which ends
    [process_monthly_data] for the whole record. *)
Theorem C4_null_in_temperature_series :
  (∀ series key keys,
     gather is_present (<[key := JNull]> series) keys
     = gather is_present (delete key series) keys
     ∧ gather is_present (<[key := JNum (-999)]> series) keys
       = gather is_present (delete key series) keys)
  ∧ _compute_variability january_sentinel 2021 2021
    = Ok {| precipitation := None; temperature := None |}
  ∧ _compute_variability january_absent 2021 2021
    = Ok {| precipitation := None; temperature := None |}
  ∧ _compute_variability january_null 2021 2021
    = Raise (TypeError "unsupported operand type(s) for +: 'int' and 'NoneType'")
  ∧ process_monthly_data (response_of january_null) 2021 2021
    = Raise (TypeError "unsupported operand type(s) for +: 'int' and 'NoneType'").
Proof.
  split; [apply gather_present_null_sentinel_absent|].
  cut (_compute_variability january_sentinel 2021 2021
       = Ok {| precipitation := None; temperature := None |}
       ∧ _compute_variability january_absent 2021 2021
         = Ok {| precipitation := None; temperature := None |}
       ∧ _compute_variability january_null 2021 2021
         = Raise (TypeError "unsupported operand type(s) for +: 'int' and 'NoneType'")).
  { intros (H1 & H2 & H3). repeat split; try done.
    by apply process_monthly_data_variability_raises. }
  assert (H25 : ne_sentinel (JNum 25) = true) by (apply ne_sentinel_num; lra).
  pose proof ne_sentinel_sentinel as H999.
  unfold _compute_variability, precip_variability, temp_variability.
  repeat split.
  - replace (january_sentinel !! "PRECTOTCORR") with (@None (gmap string jval))
      by reflexivity.
    replace (january_sentinel !! "T2M")
      with (Some (<[ "202101" := JNum (-999) ]>
                    ({[ "202107" := JNum 25 ]} : gmap string jval)))
      by reflexivity.
    change (fixed_month_keys "07" 2021 2021) with ["202107"].
    change (fixed_month_keys "01" 2021 2021) with ["202101"].
    unfold gather, get_or_sentinel.
    replace (_ !! "202107") with (Some (JNum 25)) by reflexivity.
    replace (_ !! "202101") with (Some (JNum (-999))) by reflexivity.
    simpl default. rewrite H25, H999. reflexivity.
  - replace (january_absent !! "PRECTOTCORR") with (@None (gmap string jval))
      by reflexivity.
    replace (january_absent !! "T2M")
      with (Some ({[ "202107" := JNum 25 ]} : gmap string jval)) by reflexivity.
    change (fixed_month_keys "07" 2021 2021) with ["202107"].
    change (fixed_month_keys "01" 2021 2021) with ["202101"].
    unfold gather, get_or_sentinel.
    replace (_ !! "202107") with (Some (JNum 25)) by reflexivity.
    replace (_ !! "202101") with (@None jval) by reflexivity.
    simpl default. rewrite H25, H999. reflexivity.
  - replace (january_null !! "PRECTOTCORR") with (@None (gmap string jval))
      by reflexivity.
    replace (january_null !! "T2M")
      with (Some (<[ "202101" := JNull ]>
                    ({[ "202107" := JNum 25 ]} : gmap string jval)))
      by reflexivity.
    change (fixed_month_keys "07" 2021 2021) with ["202107"].
    change (fixed_month_keys "01" 2021 2021) with ["202101"].
    unfold gather, get_or_sentinel.
    replace (_ !! "202107") with (Some (JNum 25)) by reflexivity.
    replace (_ !! "202101") with (Some JNull) by reflexivity.
    simpl default. rewrite H25. change (ne_sentinel JNull) with true. cbv iota.
    rewrite bind_Ok, !_std_short, !bind_Ok by (simpl; lia).
    change [JNum 25] with (JNum <$> [25]).
    rewrite py_sum_num, bind_Ok, len_fmap, py_div_len, bind_Ok.
    reflexivity.
Qed.

(** ** C8: the zone loop *)

Section ZoneLoopProperties.
Variable fetch_nasa_power :
  R → R → Z → Z →
  result (gmap string (gmap string (gmap string (gmap string jval)))).
Variables start_year end_year : Z.

Lemma zone_step_document zones_out zone_id zone_data :
  zone_step fetch_nasa_power start_year end_year zones_out (zone_id, zone_data)
  = dict_set zone_id
      (zone_document fetch_nasa_power start_year end_year zone_data) zones_out.
Proof.
  unfold zone_step, zone_document. simpl.
  by destruct (zone_try _ _ _ _).
Qed.

Lemma zone_loop_other zones zones_out zone_id :
  zone_id ∉ dict_keys zones →
  dict_get zone_id
    (foldl (zone_step fetch_nasa_power start_year end_year) zones_out zones)
  = dict_get zone_id zones_out.
Proof.
  revert zones_out. induction zones as [|[id z] zones IH]; intros acc Hnin; [done|].
  unfold dict_keys in Hnin. rewrite fmap_cons, not_elem_of_cons in Hnin.
  destruct Hnin as [Hne Hnin]. simpl in Hne.
  simpl foldl. rewrite IH by done.
  rewrite zone_step_document. by apply dict_get_set_ne.
Qed.

Lemma zone_loop_lookup zones zones_out zone_id zone_data :
  NoDup (dict_keys zones) →
  (zone_id, zone_data) ∈ zones →
  dict_get zone_id
    (foldl (zone_step fetch_nasa_power start_year end_year) zones_out zones)
  = Some (zone_document fetch_nasa_power start_year end_year zone_data).
Proof.
  revert zones_out. induction zones as [|[id z] zones IH]; intros acc Hnd Hin.
  { by apply elem_of_nil in Hin. }
  unfold dict_keys in Hnd. rewrite fmap_cons in Hnd.
  apply NoDup_cons in Hnd as [Hfresh Hnd]. simpl in Hfresh.
  simpl foldl. apply elem_of_cons in Hin as [[= -> ->]|Hin].
  - rewrite zone_loop_other by done.
    rewrite zone_step_document. apply dict_get_set.
  - by apply IH.
Qed.

Lemma zone_loop_keys zones zones_out :
  NoDup (dict_keys zones_out ++ dict_keys zones) →
  dict_keys (foldl (zone_step fetch_nasa_power start_year end_year) zones_out zones)
  = dict_keys zones_out ++ dict_keys zones.
Proof.
  revert zones_out. induction zones as [|[id z] zones IH]; intros acc Hnd.
  { simpl. by rewrite app_nil_r. }
  simpl foldl. rewrite zone_step_document.
  assert (Hfresh : id ∉ dict_keys acc).
  { apply NoDup_app in Hnd as (_ & Hdisj & _). intros Hin.
    apply (Hdisj id Hin). unfold dict_keys. rewrite fmap_cons. by left. }
  unfold dict_keys at 3. rewrite fmap_cons. simpl fst.
  rewrite IH; rewrite dict_keys_set_new by done.
  - by rewrite <- app_assoc.
  - by rewrite <- app_assoc.
Qed.

(** C8.  For a registry (a dict, so with pairwise different zone ids):
    the loop's output holds exactly one document per registry zone, in
    registry order; for each zone whose fetch or processing raises, that
    document is exactly the three entries zone_name, representative_point
    and error (the exception's text), so it has no climate_profile key;
    and each zone whose fetch and processing succeed has its complete
    document, whatever happened to the other zones. *)
Theorem C8_batch_continues_on_error (zones : dict zone) :
  NoDup (dict_keys zones) →
  let out := main_zones fetch_nasa_power start_year end_year zones in
  dict_keys out = dict_keys zones
  ∧ ∀ zone_id zone_data,
      (zone_id, zone_data) ∈ zones →
      let pt := representative_point zone_data in
      (∀ e, zone_try fetch_nasa_power start_year end_year pt = Raise e →
         ∃ doc, dict_get zone_id out = Some doc
           ∧ doc = [("zone_name", VStr (name zone_data));
                    ("representative_point", VPoint pt);
                    ("error", VStr (str_exn e))]
           ∧ dict_keys doc = ["zone_name"; "representative_point"; "error"]
           ∧ dict_get "climate_profile" doc = None)
      ∧ (∀ profile, zone_try fetch_nasa_power start_year end_year pt = Ok profile →
           dict_get zone_id out
           = Some [("zone_name", VStr (name zone_data));
                   ("representative_point", VPoint pt);
                   ("climate_profile", VProfile profile)]).
Proof.
  intros Hnd out. split.
  - unfold out, main_zones. by rewrite zone_loop_keys.
  - intros zone_id zone_data Hin pt.
    pose proof (zone_loop_lookup zones [] zone_id zone_data Hnd Hin) as Hdoc.
    fold (main_zones fetch_nasa_power start_year end_year zones) in Hdoc.
    fold out in Hdoc. unfold zone_document in Hdoc. fold pt in Hdoc.
    split.
    + intros e He. rewrite He in Hdoc. eexists. split; [exact Hdoc|].
      split; [reflexivity|]. split; reflexivity.
    + intros profile Hp. by rewrite Hp in Hdoc.
Qed.
End ZoneLoopProperties.

(** ** The theorems at sample records *)


Lemma C8_batch_continues_on_error_witness :
  NoDup (dict_keys sample_zones)
  ∧ dict_keys (main_zones sample_fetch 2021 2021 sample_zones) = ["zone_1"; "zone_2"]
  ∧ ∃ doc, dict_get "zone_2" (main_zones sample_fetch 2021 2021 sample_zones) = Some doc
      ∧ doc = [("zone_name", VStr "Souss");
               ("representative_point", VPoint (Point 30 (-9) "Agadir"));
               ("error", VStr "timed out")]
      ∧ dict_keys doc = ["zone_name"; "representative_point"; "error"]
      ∧ dict_get "climate_profile" doc = None.
Proof.
  assert (Hnd : NoDup (dict_keys sample_zones))
    by (unfold sample_zones; simpl; by apply (bool_decide_unpack _)).
  destruct (C8_batch_continues_on_error sample_fetch 2021 2021 sample_zones Hnd)
    as [Hkeys Hdocs].
  split; [exact Hnd|]. split; [exact Hkeys|].
  assert (Hin : ("zone_2", {| name := "Souss";
                              representative_point := Point 30 (-9) "Agadir" |})
                ∈ sample_zones).
  { unfold sample_zones. apply elem_of_cons. right. apply elem_of_cons. by left. }
  apply (proj1 (Hdocs _ _ Hin) (TransportError "timed out")).
  unfold zone_try, sample_fetch. simpl.
  destruct (Rlt_dec 30 32) as [_|Hge]; [reflexivity | lra].
Defined.

(** * Further properties of the aggregation code *)

(** ** Keys of the dict-building loops *)

Lemma foldM_dict_build_keys {A V} (f : A → result V) (key : A → string) xs acc :
  (∀ y, y ∈ xs → is_ok (f y)) →
  NoDup (dict_keys acc ++ (key <$> xs)) →
  ∃ out, foldM (fun acc y => w ← f y ; Ok (dict_set (key y) w acc)) acc xs = Ok out
         ∧ dict_keys out = dict_keys acc ++ (key <$> xs).
Proof.
  revert acc. induction xs as [|x xs IH]; intros acc Htot Hnd; csimpl.
  - exists acc. by rewrite app_nil_r.
  - destruct (Htot x) as [w ->]; [left|]. rewrite bind_Ok.
    assert (Hfresh : key x ∉ dict_keys acc).
    { apply NoDup_app in Hnd as (_ & Hdisj & _). intros Hin.
      apply (Hdisj _ Hin). left. }
    destruct (IH (dict_set (key x) w acc)) as (out & Hout & Hkeys).
    + intros y Hy. apply Htot. by right.
    + rewrite dict_keys_set_new by done. by rewrite <- app_assoc.
    + exists out. split; [done|].
      rewrite Hkeys, dict_keys_set_new by done. by rewrite <- app_assoc.
Qed.

(** X2.  The yearly series is always produced and holds exactly one record
    per year of the inclusive range, keyed by the year's decimal text, in
    increasing order; for a range with [end_year < start_year] it is
    empty. *)
Theorem X2_yearly_data_keys
    (params_data : gmap string (gmap string jval)) (start_year end_year : Z) :
  ∃ yearly,
    yearly_data_of params_data start_year end_year = Ok yearly
    ∧ dict_keys yearly = pretty <$> py_range start_year (end_year + 1)
    ∧ length yearly = Z.to_nat (end_year + 1 - start_year)
    ∧ ((end_year < start_year)%Z → yearly = []).
Proof.
  destruct (foldM_dict_build_keys (year_record_of params_data) pretty
              (py_range start_year (end_year + 1)) []) as (yd & Hyd & Hkeys).
  - intros y _. apply year_record_of_total.
  - simpl. apply NoDup_fmap_2; [apply _ | apply NoDup_seqZ].
  - exists yd. split; [exact Hyd|]. simpl in Hkeys. split; [exact Hkeys|].
    assert (Hlen : length yd = Z.to_nat (end_year + 1 - start_year)).
    { transitivity (length (dict_keys yd)); [unfold dict_keys; by rewrite length_fmap|].
      rewrite Hkeys, length_fmap. unfold py_range. by rewrite length_seqZ. }
    split; [exact Hlen|].
    intros Hlt. apply nil_length_inv. rewrite Hlen. lia.
Qed.

(** ** Entries of the monthly climatology *)


(** ** Entries of the annual summary *)

Lemma length_omap_all {A B} (f : A → option B) (l : list A) :
  (∀ x, x ∈ l → is_Some (f x)) → length (omap f l) = length l.
Proof.
  induction l as [|x l IH]; intros H; csimpl; [done|].
  destruct (H x) as [y ->]; [left|]. simpl. f_equal. apply IH.
  intros z Hz. apply H. by right.
Qed.


Lemma year_keys_length year : length (year_keys year) = 12%nat.
Proof. unfold year_keys. by rewrite length_fmap. Qed.



Lemma annual_year_step_value series param acc year :
  annual_year_step series param acc year
  = Ok (acc ++ option_list (full_year_value series param year)).
Proof.
  unfold annual_year_step, full_year_value. rewrite gather_present, length_fmap.
  destruct (_ =? 12)%nat; [|by rewrite app_nil_r].
  destruct (decide (param = "PRECTOTCORR")).
  - by rewrite py_sum_zip_num.
  - rewrite py_sum_num, bind_Ok, py_div_Ok by lra. done.
Qed.








(** ** The precipitation block *)


(** ** What [process_monthly_data] can raise *)





(** ** Period keys *)

Lemma string_length_app (s1 s2 : string) :
  String.length (s1 +:+ s2) = (String.length s1 + String.length s2)%nat.
Proof.
  induction s1 as [|a s1 IH]; [done|].
  change (String a s1 +:+ s2) with (String a (s1 +:+ s2)).
  simpl. by rewrite IH.
Qed.

Lemma string_app_inj_suffix (s1 s2 t1 t2 : string) :
  String.length t1 = String.length t2 →
  s1 +:+ t1 = s2 +:+ t2 → s1 = s2 ∧ t1 = t2.
Proof.
  intros Hlen. revert s2. induction s1 as [|a s1 IH]; intros [|b s2] Heq.
  - done.
  - exfalso. change ("" +:+ t1) with t1 in Heq. subst t1.
    rewrite string_length_app in Hlen. simpl in Hlen. lia.
  - exfalso. change ("" +:+ t2) with t2 in Heq. subst t2.
    rewrite string_length_app in Hlen. simpl in Hlen. lia.
  - change (String a (s1 +:+ t1) = String b (s2 +:+ t2)) in Heq.
    injection Heq as -> Heq. destruct (IH s2 Heq) as [-> ->]. done.
Qed.

Lemma fmt02_months :
  Forall (fun m => String.length (fmt02 m) = 2%nat
                   ∧ Forall (fun m' => fmt02 m = fmt02 m' → m = m') (seqZ 1 12))
         (seqZ 1 12).
Proof. by apply (bool_decide_unpack _). Qed.

(** X11.  The period key of a year and a month between 1 and 12 determines
    both: different (year, month) pairs never read the same entry of a
    series, for any years (negative ones and years of more or fewer than
    four digits included). *)
Theorem X11_period_key_injective (year1 year2 month1 month2 : Z) :
  (1 ≤ month1 ≤ 12)%Z → (1 ≤ month2 ≤ 12)%Z →
  period_key year1 month1 = period_key year2 month2 →
  year1 = year2 ∧ month1 = month2.
Proof.
  intros H1 H2 Heq. pose proof fmt02_months as Hf.
  rewrite Forall_forall in Hf.
  destruct (Hf month1) as [Hlen1 Hinj]; [apply elem_of_seqZ; lia|].
  destruct (Hf month2) as [Hlen2 _]; [apply elem_of_seqZ; lia|].
  rewrite Forall_forall in Hinj.
  unfold period_key in Heq.
  apply string_app_inj_suffix in Heq as [Hy Hm]; [|congruence].
  split; [by apply (inj pretty) | apply Hinj; [apply elem_of_seqZ; lia | done]].
Qed.

(** ** The zone loop as a map, and the quick summary *)







(** X14.  A zone whose fetch returns a response without the "properties"
    container, or with properties that lack "parameter", gets the error
    document, and its error text is the missing key in single quotes (the
    text of the [KeyError]). *)
Theorem X14_malformed_response_document
    (fetch_nasa_power :
       R → R → Z → Z →
       result (gmap string (gmap string (gmap string (gmap string jval)))))
    (start_year end_year : Z) (zones : dict zone)
    (zone_id : string) (zone_data : zone)
    (raw : gmap string (gmap string (gmap string (gmap string jval)))) :
  NoDup (dict_keys zones) →
  (zone_id, zone_data) ∈ zones →
  fetch_nasa_power (lat (representative_point zone_data))
    (lon (representative_point zone_data)) start_year end_year = Ok raw →
  let out := main_zones fetch_nasa_power start_year end_year zones in
  let error_document := fun text =>
    Some [("zone_name", VStr (name zone_data));
          ("representative_point", VPoint (representative_point zone_data));
          ("error", VStr text)] in
  (raw !! "properties" = None → dict_get zone_id out = error_document "'properties'")
  ∧ (∀ props, raw !! "properties" = Some props → props !! "parameter" = None →
       dict_get zone_id out = error_document "'parameter'").
Proof.
  intros Hnd Hin Hfetch out error_document.
  pose proof (zone_loop_lookup fetch_nasa_power start_year end_year zones []
                zone_id zone_data Hnd Hin) as Hdoc.
  fold (main_zones fetch_nasa_power start_year end_year zones) in Hdoc. fold out in Hdoc.
  unfold zone_document, zone_try in Hdoc. rewrite Hfetch, bind_Ok in Hdoc.
  unfold process_monthly_data, getitem in Hdoc.
  split.
  - intros Hnone. by rewrite Hnone in Hdoc.
  - intros props Hprops Hnone. by rewrite Hprops, bind_Ok, Hnone in Hdoc.
Qed.

(** ** The further properties at sample records *)

Lemma months_from_present (first year m : Z) (v : R) :
  (first ≤ m ≤ 12)%Z → v ≠ -999 →
  present_value (months_from first year v) (period_key year m) = Some v.
Proof.
  intros Hm Hv. unfold present_value. rewrite months_from_lookup by done.
  by destruct (Req_dec_T v (-999)).
Qed.



Lemma X11_period_key_injective_witness :
  period_key 2021 7 = period_key 2021 7 ∧ 2021%Z = 2021%Z ∧ 7%Z = 7%Z.
Proof.
  split; [reflexivity|].
  exact (X11_period_key_injective 2021 2021 7 7 ltac:(lia) ltac:(lia) eq_refl).
Defined.

Lemma sample_zones_NoDup : NoDup (dict_keys sample_zones).
Proof. unfold sample_zones. simpl. by apply (bool_decide_unpack _). Qed.

Lemma X14_malformed_response_document_witness :
  NoDup (dict_keys sample_zones)
  ∧ dict_get "zone_1" (main_zones empty_fetch 2021 2021 sample_zones)
    = Some [("zone_name", VStr "Gharb");
            ("representative_point", VPoint (Point 34 (-6) "Kenitra"));
            ("error", VStr "'properties'")].
Proof.
  split; [exact sample_zones_NoDup|].
  assert (Hin : ("zone_1", {| name := "Gharb";
                              representative_point := Point 34 (-6) "Kenitra" |})
                ∈ sample_zones).
  { unfold sample_zones. apply elem_of_cons. by left. }
  exact (proj1 (X14_malformed_response_document empty_fetch 2021 2021 sample_zones
                  "zone_1" _ ∅ sample_zones_NoDup Hin eq_refl) (lookup_empty _)).
Defined.




(** ** Full years in the yearly series and in the annual summary *)

(** X16.  For a processed parameter and a year of the range with all
    twelve months present, the two yearly reductions agree: the value the
    year contributes to the annual summary is, rounded to 1 decimal, the
    annual total of the year's record (precipitation), or, rounded to 2
    decimals, the monthly mean of the year's record (any other
    parameter). *)
Theorem X16_full_year_consistent
    (params_data : gmap string (gmap string jval)) (series : gmap string jval)
    (param : string) (start_year end_year year : Z) :
  param ∈ PARAMETERS →
  params_data !! param = Some series →
  (start_year ≤ year ≤ end_year)%Z →
  (∀ m, (1 ≤ m ≤ 12)%Z → is_Some (present_value series (period_key year m))) →
  ∃ v yearly year_record,
    annual_year_step series param [] year = Ok [v]
    ∧ yearly_data_of params_data start_year end_year = Ok yearly
    ∧ dict_get (pretty year) yearly = Some year_record
    ∧ (if decide (param = "PRECTOTCORR")
       then dict_get "PRECTOTCORR_annual_total_mm" year_record = Some (py_round v 1)
       else dict_get (param +:+ "_monthly_mean") year_record = Some (py_round v 2)).
Proof.
  intros Hin Hpd Hyear Hfull.
  assert (Hlen : length (omap (present_value series) (year_keys year)) = 12%nat).
  { rewrite length_omap_all, year_keys_length; [done|].
    intros key (m & -> & Hm%py_range_elem)%list_elem_of_fmap. apply Hfull. lia. }
  destruct (omap (present_value series) (year_keys year)) as [|x xs] eqn:Hvals;
    [discriminate Hlen|].
  assert (Hv : full_year_value series param year
               = Some (if decide (param = "PRECTOTCORR")
                       then sum_R (zip_with Rmult (x :: xs) days_per_month)
                       else sum_R (x :: xs) / 12)).
  { unfold full_year_value. rewrite Hvals, Hlen. done. }
  assert (H12 : len (x :: xs) = 12).
  { unfold len. rewrite Hlen. simpl. lra. }
  destruct (decide (param = "PRECTOTCORR")) as [->|Hne].
  - destruct (year_record_annual_total params_data year series x xs Hpd Hvals)
      as (rec & Hrec & Hget).
    destruct (yearly_data_lookup params_data start_year end_year year rec Hyear Hrec)
      as (yd & Hyd & Hlook).
    eexists _, yd, rec. split; [|done].
    rewrite annual_year_step_value, Hv. reflexivity.
  - destruct (year_record_monthly_mean params_data year param series x xs
                Hin Hpd Hvals) as (rec & Hrec & Hget).
    destruct (yearly_data_lookup params_data start_year end_year year rec Hyear Hrec)
      as (yd & Hyd & Hlook).
    eexists _, yd, rec. split; [rewrite annual_year_step_value, Hv; reflexivity|].
    split; [done|]. split; [done|]. by rewrite Hget, H12.
Qed.

Lemma X16_full_year_consistent_witness :
  (∀ m, (1 ≤ m ≤ 12)%Z →
        is_Some (present_value (months_from 1 2021 1) (period_key 2021 m)))
  ∧ ∃ v yearly year_record,
      annual_year_step (months_from 1 2021 1) "PRECTOTCORR" [] 2021 = Ok [v]
      ∧ yearly_data_of precipitation_full_year 2021 2021 = Ok yearly
      ∧ dict_get (pretty 2021%Z) yearly = Some year_record
      ∧ (if decide ("PRECTOTCORR" = "PRECTOTCORR")
         then dict_get "PRECTOTCORR_annual_total_mm" year_record
              = Some (py_round v 1)
         else dict_get ("PRECTOTCORR" +:+ "_monthly_mean") year_record
              = Some (py_round v 2)).
Proof.
  assert (H : ∀ m, (1 ≤ m ≤ 12)%Z →
     is_Some (present_value (months_from 1 2021 1) (period_key 2021 m))).
  { intros m Hm. exists 1. apply months_from_present; [lia | lra]. }
  split; [exact H|].
  exact (X16_full_year_consistent precipitation_full_year (months_from 1 2021 1)
           "PRECTOTCORR" 2021 2021 2021
           ltac:(unfold PARAMETERS; set_solver) (lookup_singleton_eq _ _)
           ltac:(lia) H).
Defined.

(** ** An empty parameter container *)

Lemma dict_set_Forall {V} (P : string * V → Prop) k v (d : dict V) :
  P (k, v) → Forall P d → Forall P (dict_set k v d).
Proof.
  intros Hkv. induction 1 as [|[k' v'] d Hx Hd IH]; simpl.
  - by constructor.
  - destruct (decide (k' = k)); constructor; done.
Qed.

(** X17.  A response whose parameter container is empty is not an error:
    for every year range it is processed into a profile with the twelve
    months each mapped to an empty mapping, an empty annual summary, an
    empty record for every year of the range and no variability block. *)
Theorem X17_empty_record (start_year end_year : Z) :
  ∃ profile,
    process_monthly_data (response_of ∅) start_year end_year = Ok profile
    ∧ monthly_climatology_of profile
      = (fun month_name => (month_name, [])) <$> MONTH_NAMES
    ∧ annual_summary_of profile = []
    ∧ dict_keys (yearly_data profile) = pretty <$> py_range start_year (end_year + 1)
    ∧ Forall (fun item => item.2 = []) (yearly_data profile)
    ∧ variability_of profile = {| precipitation := None; temperature := None |}.
Proof.
  destruct (foldM_dict_build_keys (year_record_of ∅) pretty
              (py_range start_year (end_year + 1)) []) as (yd & Hyd & Hkeys).
  { intros y _. apply year_record_of_total. }
  { simpl. apply NoDup_fmap_2; [apply _ | apply NoDup_seqZ]. }
  assert (Hempty : Forall (fun item : string * dict R => item.2 = []) yd).
  { destruct (foldM_invariant
                (fun yearly_data year =>
                   year_record ← year_record_of ∅ year ;
                   Ok (dict_set (pretty year) year_record yearly_data))
                (Forall (fun item : string * dict R => item.2 = []))
                (py_range start_year (end_year + 1)) []) as (yd' & Hyd' & Hall).
    - constructor.
    - intros acc year _ Hacc.
      replace (year_record_of ∅ year) with (Ok ([] : dict R)) by reflexivity.
      rewrite bind_Ok. eexists. split; [done|]. by apply dict_set_Forall.
    - rewrite Hyd in Hyd'. by injection Hyd' as <-. }
  unfold process_monthly_data, response_of, getitem.
  rewrite lookup_singleton_eq, bind_Ok, lookup_singleton_eq, bind_Ok.
  replace (monthly_climatology ∅ start_year end_year)
    with (Ok ((fun month_name => (month_name, ([] : dict month_stats))) <$> MONTH_NAMES))
    by reflexivity.
  replace (annual_summary ∅ start_year end_year) with (Ok ([] : dict annual_stats))
    by reflexivity.
  fold (yearly_data_of ∅ start_year end_year) in Hyd. rewrite !bind_Ok, Hyd, bind_Ok.
  replace (_compute_variability ∅ start_year end_year)
    with (Ok {| precipitation := None; temperature := None |}) by reflexivity.
  rewrite bind_Ok. eexists. split; [reflexivity|]. simpl.
  split; [done|]. split; [done|]. split; [exact Hkeys|]. split; [exact Hempty | done].
Qed.

(** * Properties on binary64 floats *)

Import Binary64.

Set Default Proof Using "Type".

(** ** Doubling and halving in IEEE 754 binary64 *)

Section Ieee754.
Local Open Scope Z_scope.

Lemma round_aux_canonical (s : bool) (m : positive) (e : Z) :
  SpecFloat.bounded prec emax m e = true →
  binary_round_aux prec emax s (Zpos m) e loc_Exact = S754_finite s m e.
Proof.
  unfold SpecFloat.bounded, canonical_mantissa. intros [Hc He]%andb_prop.
  apply Z.eqb_eq in Hc. apply Z.leb_le in He.
  unfold binary_round_aux, shr_fexp. simpl Zdigits2.
  rewrite Hc, Z.sub_diag. cbn [shr shr_record_of_loc shr_m loc_of_shr_record round_nearest_even Zdigits2].
  rewrite Hc, Z.sub_diag. cbn [shr shr_record_of_loc shr_m].
  apply Z.leb_le in He. rewrite He. done.
Qed.

Lemma SFsub_diag (s : bool) (m : positive) (e : Z) :
  SF64sub (S754_finite s m e) (S754_finite s m e) = S754_zero false.
Proof.
  unfold SF64sub, SFsub. rewrite Z.min_id. unfold shl_align. rewrite Z.sub_diag.
  done.
Qed.

Lemma SFadd_opp (s : bool) (m : positive) (e : Z) :
  SF64add (S754_finite (negb s) m e) (S754_finite s m e) = S754_zero false.
Proof.
  unfold SF64add, SFadd. rewrite Z.min_id. unfold shl_align. rewrite Z.sub_diag.
  cbn [fst]. by destruct s; cbn [negb cond_Zopp]; rewrite ?Z.add_opp_diag_l, ?Z.add_opp_diag_r.
Qed.

(** A finite float is normal (53 digits) or subnormal (exponent [emin]). *)
Lemma bounded_cases (m : positive) (e : Z) :
  SpecFloat.bounded prec emax m e = true →
  e <= 971 ∧ ((Z.pos (digits2_pos m) = 53 ∧ -1074 <= e)
              ∨ (Z.pos (digits2_pos m) < 53 ∧ e = -1074)).
Proof.
  unfold SpecFloat.bounded, canonical_mantissa, fexp, emin, emax, prec.
  intros [Hc He]%andb_prop. apply Z.eqb_eq in Hc. apply Z.leb_le in He. lia.
Qed.

Lemma bounded_intro (m : positive) (e : Z) :
  e <= 971 →
  (Z.pos (digits2_pos m) = 53 ∧ -1074 <= e) ∨ (Z.pos (digits2_pos m) < 53 ∧ e = -1074) →
  SpecFloat.bounded prec emax m e = true.
Proof.
  unfold SpecFloat.bounded, canonical_mantissa, fexp, emin, emax, prec.
  intros He Hc. apply andb_true_intro. split; [apply Z.eqb_eq | apply Z.leb_le]; lia.
Qed.

(** Rounding an exact mantissa with one digit too many whose last bit is 0. *)
Lemma round_aux_shift (s : bool) (m : positive) (e : Z) :
  Z.pos (digits2_pos m) = 53 → -1074 <= e + 1 →
  binary_round_aux prec emax s (Z.pos m~0) e loc_Exact
  = if (e + 1 <=? 971) then S754_finite s m (e + 1) else S754_infinity s.
Proof.
  intros Hd He.
  assert (H1 : fexp prec emax (Z.pos (digits2_pos m~0) + e) - e = 1).
  { cbn [digits2_pos]. unfold fexp, emin, emax, prec. lia. }
  assert (H2 : fexp prec emax (Z.pos (digits2_pos m) + (e + 1)) - (e + 1) = 0).
  { unfold fexp, emin, emax, prec. lia. }
  unfold binary_round_aux, shr_fexp. cbn [Zdigits2].
  rewrite H1. cbn [shr shr_record_of_loc SpecFloat.iter_pos shr_1 orb shr_m loc_of_shr_record
                   round_nearest_even Zdigits2].
  rewrite H2.
  cbn [shr shr_record_of_loc shr_m]. done.
Qed.

(** [x + x] for a finite [x]: the exponent goes up (normal) or the mantissa
    doubles (subnormal). *)
Lemma SFadd_diag (s : bool) (m : positive) (e : Z) :
  SpecFloat.bounded prec emax m e = true →
  SF64add (S754_finite s m e) (S754_finite s m e)
  = if (Z.pos (digits2_pos m) <? 53) then S754_finite s (m~0) e
    else if (e + 1 <=? 971) then S754_finite s m (e + 1) else S754_infinity s.
Proof.
  intros Hb. destruct (bounded_cases m e Hb) as [He Hc].
  unfold SF64add, SFadd. rewrite Z.min_id. unfold shl_align. rewrite Z.sub_diag.
  cbn [fst].
  assert (Hsum : cond_Zopp s (Z.pos m) + cond_Zopp s (Z.pos m) = cond_Zopp s (Z.pos m~0)).
  { destruct s; cbn [cond_Zopp]; lia. }
  rewrite Hsum.
  assert (Hn : binary_normalize prec emax (cond_Zopp s (Z.pos m~0)) e false
               = binary_round prec emax s m~0 e) by (by destruct s).
  rewrite Hn. unfold binary_round, shl_align.
  destruct Hc as [[Hd Hmin] | [Hd ->]].
  - replace (fexp prec emax (Z.pos (digits2_pos m~0) + e) - e) with 1
      by (cbn [digits2_pos]; unfold fexp, emin, emax, prec; lia).
    rewrite round_aux_shift by lia.
    replace (Z.pos (digits2_pos m) <? 53) with false by (symmetry; apply Z.ltb_ge; lia).
    done.
  - replace (fexp prec emax (Z.pos (digits2_pos m~0) + -1074) - -1074) with 0
      by (cbn [digits2_pos]; unfold fexp, emin, emax, prec; lia).
    rewrite round_aux_canonical
      by (apply bounded_intro; [lia | cbn [digits2_pos]; lia]).
    replace (Z.pos (digits2_pos m) <? 53) with true by (symmetry; apply Z.ltb_lt; lia).
    done.
Qed.

Lemma div_eucl_exact (q : Z) (p : positive) :
  Z.div_eucl (q * Z.pos p) (Z.pos p) = (q, 0).
Proof.
  transitivity (q * Z.pos p / Z.pos p, (q * Z.pos p) mod Z.pos p).
  - unfold Z.div, Z.modulo. by destruct (Z.div_eucl _ _).
  - by rewrite Z.div_mul, Z.mod_mul by lia.
Qed.

(** Halving a finite float whose mantissa can give up a factor 2. *)
Lemma SFdiv_two_core (m1 : positive) (e1 e' : Z) (q : positive) :
  e' = Z.min (fexp prec emax (Z.pos (digits2_pos m1) + e1 - 2)) (e1 + 51) →
  0 <= e1 + 51 - e' →
  Z.pos m1 * 2 ^ (e1 + 51 - e') = Z.pos q * 4503599627370496 →
  SFdiv_core_binary prec emax (Z.pos m1) e1 4503599627370496 (-51)
  = (Z.pos q, e', loc_Exact).
Proof.
  intros He' Hs Hq. unfold SFdiv_core_binary. cbn [Zdigits2].
  change (Z.pos (digits2_pos 4503599627370496) + -51) with 2.
  replace (e1 - -51) with (e1 + 51) by lia. rewrite <- He'.
  assert (Hm : match e1 + 51 - e' with
               | 0 => Z.pos m1
               | Z.pos _ => Z.shiftl (Z.pos m1) (e1 + 51 - e')
               | Z.neg _ => 0
               end = Z.pos q * 4503599627370496).
  { rewrite <- Hq. destruct (e1 + 51 - e') eqn:E; [simpl; lia | | lia].
    by rewrite Z.shiftl_mul_pow2 by lia. }
  rewrite Hm, div_eucl_exact. done.
Qed.

Lemma SFdiv_two_normal (s : bool) (m : positive) (e : Z) :
  Z.pos (digits2_pos m) = 53 → -1074 <= e → e + 1 <= 971 →
  SF64div (S754_finite s m (e + 1)) (S754_finite false 4503599627370496 (-51)) = S754_finite s m e.
Proof.
  intros Hd Hmin Hmax. unfold SF64div, SFdiv. rewrite xorb_false_r.
  destruct (decide (e = -1074)) as [-> | Hne].
  - rewrite (SFdiv_two_core m (-1074 + 1) (-1074) m).
    + apply round_aux_canonical, bounded_intro; lia.
    + rewrite Hd. reflexivity.
    + lia.
    + change (-1074 + 1 + 51 - -1074) with 52. lia.
  - rewrite (SFdiv_two_core m (e + 1) (e - 1) m~0).
    + rewrite round_aux_shift by lia.
      replace (e - 1 + 1) with e by lia.
      replace (e <=? 971) with true by (symmetry; apply Z.leb_le; lia). done.
    + rewrite Hd. unfold fexp, emin, emax, prec. lia.
    + lia.
    + replace (e + 1 + 51 - (e - 1)) with 53 by lia. lia.
Qed.

Lemma SFdiv_two_subnormal (s : bool) (m : positive) :
  Z.pos (digits2_pos m) < 53 →
  SF64div (S754_finite s m~0 (-1074)) (S754_finite false 4503599627370496 (-51)) = S754_finite s m (-1074).
Proof.
  intros Hd. unfold SF64div, SFdiv. rewrite xorb_false_r.
  rewrite (SFdiv_two_core m~0 (-1074) (-1074) m).
  - apply round_aux_canonical, bounded_intro; lia.
  - cbn [digits2_pos]. unfold fexp, emin, emax, prec. lia.
  - lia.
  - change (-1074 + 51 - -1074) with 51. lia.
Qed.

(** [x - (x + x) = -x] *)
Lemma SFsub_double_normal (s : bool) (m : positive) (e : Z) :
  SpecFloat.bounded prec emax m e = true →
  SF64sub (S754_finite s m e) (S754_finite s m (e + 1)) = S754_finite (negb s) m e.
Proof.
  intros Hb. unfold SF64sub, SFsub.
  rewrite Z.min_l by lia. unfold shl_align. rewrite Z.sub_diag.
  replace (e - (e + 1)) with (-1) by lia. cbn [fst Pos.iter].
  assert (Hd : cond_Zopp s (Z.pos m) - cond_Zopp s (Z.pos m~0)
               = cond_Zopp (negb s) (Z.pos m)) by (destruct s; cbn [cond_Zopp negb]; lia).
  rewrite Hd.
  assert (Hn : binary_normalize prec emax (cond_Zopp (negb s) (Z.pos m)) e false
               = binary_round prec emax (negb s) m e) by (by destruct s).
  rewrite Hn. unfold binary_round, shl_align.
  pose proof Hb as [Hc _]%andb_prop. apply Z.eqb_eq in Hc. rewrite Hc, Z.sub_diag.
  by apply round_aux_canonical.
Qed.

Lemma SFsub_double_subnormal (s : bool) (m : positive) (e : Z) :
  SpecFloat.bounded prec emax m e = true →
  SF64sub (S754_finite s m e) (S754_finite s m~0 e) = S754_finite (negb s) m e.
Proof.
  intros Hb. unfold SF64sub, SFsub.
  rewrite Z.min_id. unfold shl_align. rewrite Z.sub_diag. cbn [fst].
  assert (Hd : cond_Zopp s (Z.pos m) - cond_Zopp s (Z.pos m~0)
               = cond_Zopp (negb s) (Z.pos m)) by (destruct s; cbn [cond_Zopp negb]; lia).
  rewrite Hd.
  assert (Hn : binary_normalize prec emax (cond_Zopp (negb s) (Z.pos m)) e false
               = binary_round prec emax (negb s) m e) by (by destruct s).
  rewrite Hn. unfold binary_round, shl_align.
  pose proof Hb as [Hc _]%andb_prop. apply Z.eqb_eq in Hc. rewrite Hc, Z.sub_diag.
  by apply round_aux_canonical.
Qed.

(** ** From the specification to the primitive floats *)

Lemma SFeqb_refl (x : spec_float) :
  SFeqb x x = match x with S754_nan => false | _ => true end.
Proof.
  unfold SFeqb. destruct x as [[] | [] | | s m e]; try done.
  unfold SFcompare.
  by destruct s; rewrite Z.compare_refl, Pos.compare_cont_refl.
Qed.

Lemma is_nan_spec (x : float) :
  is_nan x = match Prim2SF x with S754_nan => true | _ => false end.
Proof. unfold is_nan. rewrite FloatAxioms.eqb_spec, SFeqb_refl. by destruct (Prim2SF x). Qed.

Lemma is_infinity_spec (x : float) :
  is_infinity x = match Prim2SF x with S754_infinity _ => true | _ => false end.
Proof.
  unfold is_infinity. rewrite FloatAxioms.eqb_spec, abs_spec.
  by destruct (Prim2SF x) as [s | s | | s m e].
Qed.

Lemma is_zero_spec (x : float) :
  is_zero x = match Prim2SF x with S754_zero _ => true | _ => false end.
Proof.
  unfold is_zero. rewrite FloatAxioms.eqb_spec.
  by destruct (Prim2SF x) as [[] | [] | | [] m e].
Qed.

Lemma is_finite_spec (x : float) :
  is_finite x = match Prim2SF x with
                | S754_nan | S754_infinity _ => false
                | _ => true
                end.
Proof.
  unfold is_finite. rewrite is_nan_spec, is_infinity_spec. by destruct (Prim2SF x).
Qed.

Lemma finite_cases (x : float) :
  is_finite x = true →
  (∃ s, Prim2SF x = S754_zero s)
  ∨ (∃ s m e, Prim2SF x = S754_finite s m e ∧ SpecFloat.bounded prec emax m e = true).
Proof.
  rewrite is_finite_spec. pose proof (Prim2SF_valid x) as Hv.
  destruct (Prim2SF x) as [s | s | | s m e]; try done; eauto 6.
Qed.

Lemma sub_diag_finite (x : float) : is_finite x = true → (x - x)%float = 0%float.
Proof.
  intros Hf. apply Prim2SF_inj. rewrite sub_spec.
  destruct (finite_cases x Hf) as [[s ->] | (s & m & e & -> & Hb)].
  - by destruct s.
  - apply SFsub_diag.
Qed.

(** What [x + x] is when it is finite. *)
Lemma double_cases (x : float) :
  is_finite (x + x) = true →
  is_finite x = true
  ∧ ((∃ s, Prim2SF x = S754_zero s ∧ Prim2SF (x + x) = S754_zero s)
     ∨ (∃ s m e, Prim2SF x = S754_finite s m e ∧ SpecFloat.bounded prec emax m e = true
          ∧ ((Z.pos (digits2_pos m) = 53 ∧ -1074 <= e ∧ e + 1 <= 971
              ∧ Prim2SF (x + x) = S754_finite s m (e + 1))
             ∨ (Z.pos (digits2_pos m) < 53 ∧ e = -1074
                ∧ Prim2SF (x + x) = S754_finite s m~0 e)))).
Proof.
  rewrite !is_finite_spec, add_spec. pose proof (Prim2SF_valid x) as Hv.
  destruct (Prim2SF x) as [s | s | | s m e]; try done.
  - intros _. split; [done|]. left. exists s. by destruct s.
  - by destruct s.
  - cbn [valid_binary] in Hv. rewrite SFadd_diag by done.
    destruct (bounded_cases m e Hv) as [He [[Hd Hmin] | [Hd ->]]].
    + replace (Z.pos (digits2_pos m) <? 53) with false by (symmetry; apply Z.ltb_ge; lia).
      destruct (Z.leb_spec (e + 1) 971); [|done].
      intros _. split; [done|]. right. exists s, m, e. eauto 10.
    + replace (Z.pos (digits2_pos m) <? 53) with true by (symmetry; apply Z.ltb_lt; lia).
      intros _. split; [done|]. right. exists s, m, (-1074). eauto 10.
Qed.

Lemma Prim2SF_two : Prim2SF 2 = S754_finite false 4503599627370496 (-51).
Proof. reflexivity. Qed.

Lemma halve_double (x : float) : is_finite (x + x) = true → ((x + x) / 2)%float = x.
Proof.
  intros Hf. apply Prim2SF_inj. rewrite div_spec, Prim2SF_two.
  destruct (double_cases x Hf) as [_ [(s & Hx & ->) | (s & m & e & Hx & Hb & Hc)]];
    rewrite Hx.
  - by destruct s.
  - destruct Hc as [(Hd & Hmin & Hmax & ->) | (Hd & -> & ->)].
    + by apply SFdiv_two_normal.
    + by apply SFdiv_two_subnormal.
Qed.

(** The rounding error of [x + x] is zero: [(x - (x + x)) + x = 0]. *)
Lemma double_error (x : float) :
  is_finite (x + x) = true → ((x - (x + x)) + x)%float = 0%float.
Proof.
  intros Hf. apply Prim2SF_inj. rewrite add_spec, sub_spec.
  destruct (double_cases x Hf) as [_ [(s & Hx & ->) | (s & m & e & Hx & Hb & Hc)]];
    rewrite Hx.
  - by destruct s.
  - destruct Hc as [(Hd & Hmin & Hmax & ->) | (Hd & -> & ->)].
    + rewrite SFsub_double_normal by done. apply SFadd_opp.
    + rewrite SFsub_double_subnormal by done. apply SFadd_opp.
Qed.

Lemma abs_leb_refl (x : float) : is_nan x = false → (abs x <=? abs x)%float = true.
Proof.
  rewrite is_nan_spec, leb_spec, abs_spec. unfold SFleb.
  destruct (Prim2SF x) as [[] | [] | | s m e]; try done.
  intros _. cbn [SFabs SFcompare]. by rewrite Z.compare_refl, Pos.compare_cont_refl.
Qed.

End Ieee754.

Local Open Scope float_scope.

Lemma zero_add_nonzero (x : float) :
  is_zero x = false → 0 + x = x.
Proof.
  rewrite is_zero_spec. intros Hz. apply Prim2SF_inj. rewrite add_spec.
  change (Prim2SF 0) with (S754_zero false).
  by destruct (Prim2SF x) as [[] | [] | | s m e].
Qed.

Lemma is_zero_cases (x : float) : is_zero x = true → x = 0 ∨ x = -0.
Proof.
  rewrite is_zero_spec. intros Hz.
  destruct (Prim2SF x) as [[] | | | ] eqn:E; try done.
  - right. by apply Prim2SF_inj.
  - left. by apply Prim2SF_inj.
Qed.

(** ** The summations on two equal floats *)

Lemma sum_left_pair (a : float) : sum_left [a; a] = 0 + a + a.
Proof. reflexivity. Qed.

Lemma sum_compensated_pair (a : float) :
  is_finite (a + a) = true → sum_compensated [a; a] = 0 + a + a.
Proof.
  intros Hf. unfold sum_compensated, neumaier.
  destruct (is_zero a) eqn:Hz.
  - by destruct (is_zero_cases a Hz) as [-> | ->].
  - rewrite zero_add_nonzero by done.
    assert (Hn : is_nan a = false).
    { destruct (double_cases a Hf) as [Ha _]. unfold is_finite in Ha.
      by apply negb_true_iff, orb_false_elim in Ha as [-> _]. }
    rewrite abs_leb_refl, double_error by done. reflexivity.
Qed.

Lemma precipitation_processed : "PRECTOTCORR" ∈ PARAMETERS.
Proof. unfold PARAMETERS. set_solver. Qed.

Section ScriptProperties.

Variable float_sum : list float → float.
Variable libm_pow : float → float → float.
Variable float_round : float → nat → float.

(** ** Sums over lists of numbers *)

Lemma try_map_num (msg : string) (xs : list float) :
  try_map (num msg) (JNum <$> xs) = Ok xs.
Proof. induction xs as [|x xs IH]; csimpl; [done|]. by rewrite IH. Qed.

Lemma try_map_num_term {B} (msg : string) (g : float → result B) (xs : list float) :
  try_map (fun v => x ← num msg v ; g x) (JNum <$> xs) = try_map g xs.
Proof. induction xs as [|x xs IH]; csimpl; [done|]. by rewrite IH. Qed.

Lemma py_sum_num_float (x : float) (xs : list float) :
  py_sum float_sum (JNum <$> x :: xs) = Ok (float_sum (x :: xs)).
Proof. unfold py_sum. csimpl. by rewrite try_map_num. Qed.

Lemma py_div_int_Ok (x : float) (n : nat) :
  n ≠ 0%nat → py_div_int x n = Ok (x / float_of_nat n).
Proof. intros Hn. unfold py_div_int. by rewrite decide_False. Qed.

Lemma try_map_zip_num (xs : list float) (ws : list pynum) :
  try_map (fun vd : jval * pynum =>
          x ← num ("unsupported operand type(s) for *: 'NoneType' and '"
                   +:+ type_name vd.2 +:+ "'") vd.1 ;
          Ok (x * to_float vd.2))
       (zip (JNum <$> xs) ws)
  = Ok (zip_with (fun x d => x * to_float d) xs ws).
Proof.
  revert ws. induction xs as [|x xs IH]; intros [|w ws]; csimpl; try done.
  by rewrite IH.
Qed.

Lemma py_sum_zip_num_float (xs : list float) (ws : list pynum) :
  py_sum_zip float_sum (JNum <$> xs) ws
  = Ok (float_sum (zip_with (fun x d => x * to_float d) xs ws)).
Proof. unfold py_sum_zip, py_sum_gen. by rewrite try_map_zip_num. Qed.

(** ** [_std] *)

Lemma pow_two_zero : pow_two libm_pow 0 = Ok 0.
Proof. reflexivity. Qed.

(** On two or more floats [_std] is the Bessel-corrected formula, evaluated
    in floats. *)
Lemma _std_num_ge2_float (x y : float) (l : list float) :
  let xs := x :: y :: l in
  let mean := float_sum xs / float_of_nat (length xs) in
  _std float_sum libm_pow (JNum <$> xs)
  = (squares ← try_map (fun v => pow_two libm_pow (v - mean)) xs ;
     pow_half libm_pow (float_sum squares / float_of_nat (length xs - 1))).
Proof.
  intros xs mean. subst mean xs. unfold _std.
  rewrite length_fmap. change (length (x :: y :: l) <? 2)%nat with false. cbv iota.
  rewrite py_sum_num_float, bind_Ok, py_div_int_Ok, bind_Ok by done.
  unfold py_sum_gen. rewrite try_map_num_term.
  destruct (try_map _ _) as [squares|e]; [|done].
  rewrite !bind_Ok. rewrite py_div_int_Ok; [done|].
  simpl. lia.
Qed.

Lemma try_map_Raise {A B} (g : A → result B) (xs : list A) (e : exn) :
  try_map g xs = Raise e → ∃ x, x ∈ xs ∧ g x = Raise e.
Proof.
  induction xs as [|x xs IH]; csimpl; [done|].
  destruct (g x) as [y|e'] eqn:Hx; csimpl.
  - destruct (try_map g xs) as [ys|e'']; csimpl; [done|].
    intros [= ->]. destruct IH as (z & Hz & Hgz); [done|].
    exists z. split; [by right | done].
  - intros [= ->]. exists x. split; [by left | done].
Qed.

Lemma pow_two_Raise (v : float) (e : exn) :
  pow_two libm_pow v = Raise e →
  e = OverflowError ∧ is_infinity (libm_pow (abs v) 2) = true.
Proof.
  unfold pow_two. repeat case_match; try done. by intros [= <-].
Qed.

Lemma pow_half_Raise (v : float) (e : exn) :
  pow_half libm_pow v = Raise e →
  (e = ComplexResult ∧ (v <? 0) = true)
  ∨ (e = OverflowError ∧ is_infinity (libm_pow v 0.5) = true).
Proof.
  unfold pow_half. repeat case_match; try done; intros [= <-]; auto.
Qed.

(** The standard deviation of two equal floats whose sum is finite. *)
Lemma _std_two_equal (x : float) :
  is_finite (x + x) = true →
  float_sum [x; x] = 0 + x + x →
  float_sum [0; 0] = 0 →
  _std float_sum libm_pow [JNum x; JNum x] = Ok 0.
Proof.
  intros Hf Hsum Hzero.
  change [JNum x; JNum x] with (JNum <$> [x; x]).
  rewrite (_std_num_ge2_float x x []). rewrite Hsum.
  change (float_of_nat (length [x; x])) with 2.
  change (float_of_nat (length [x; x] - 1)) with 1.
  destruct (is_zero x) eqn:Hz.
  - destruct (is_zero_cases x Hz) as [-> | ->]; csimpl.
    + vm_compute try_map. simpl. rewrite Hzero. reflexivity.
    + vm_compute try_map. simpl. rewrite Hzero. reflexivity.
  - rewrite zero_add_nonzero, halve_double by done.
    destruct (double_cases x Hf) as [Hx _].
    csimpl. rewrite sub_diag_finite by done.
    rewrite pow_two_zero. csimpl. rewrite Hzero. reflexivity.
Qed.

(** ** The collecting loops *)

(** What the guarded loops collect are numbers: the present values, in key
    order. *)
Lemma gather_present_float series keys :
  gather is_present series keys = JNum <$> omap (present_value series) keys.
Proof.
  induction keys as [|key keys IH]; simpl; [done|].
  unfold get_or_sentinel, present_value, is_present at 1.
  destruct (series !! key) as [[|x]|]; simpl; [done | | done].
  destruct (x =? -999); simpl; [done | by rewrite IH].
Qed.

(** The values collected for a year whose present months are those
    satisfying [P], month [m] carrying the number [f m]. *)
Lemma year_values_where_float (P : Z → Prop) `{!∀ m, Decision (P m)}
    series year (f : Z → float) :
  (∀ m, (1 ≤ m ≤ 12)%Z → P m →
        series !! period_key year m = Some (JNum (f m)) ∧ (f m =? -999) = false) →
  (∀ m, (1 ≤ m ≤ 12)%Z → ¬ P m →
        present_value series (period_key year m) = None) →
  omap (present_value series) (year_keys year) = f <$> filter P (seqZ 1 12).
Proof.
  intros Hpres Hmiss. unfold year_keys, py_range.
  change (13 - 1)%Z with 12%Z. rewrite omap_fmap_compose.
  apply omap_filter.
  - intros m Hm HP. apply elem_of_seqZ in Hm.
    destruct (Hpres m) as [Hlook Hval]; [lia | done |].
    simpl. unfold present_value. by rewrite Hlook, Hval.
  - intros m Hm HP. apply elem_of_seqZ in Hm. simpl. apply Hmiss; [lia | done].
Qed.

Lemma year_values_all_but_one series year (m0 : Z) (f : Z → float) :
  present_value series (period_key year m0) = None →
  (∀ m, (1 ≤ m ≤ 12)%Z → m ≠ m0 →
        series !! period_key year m = Some (JNum (f m)) ∧ (f m =? -999) = false) →
  omap (present_value series) (year_keys year)
  = f <$> filter (fun m => m ≠ m0) (seqZ 1 12).
Proof.
  intros Hmiss Hpres. apply year_values_where_float; [done|].
  intros m _ Hm. assert (m = m0) as -> by (by destruct (decide (m = m0))). done.
Qed.

(** ** The year loop of the annual summary *)

Lemma foldM_append_acc {A B} (step : list B → A → result (list B)) acc xs :
  (∀ acc x, step acc x = (r ← step [] x ; Ok (acc ++ r))) →
  foldM step acc xs = (r ← foldM step [] xs ; Ok (acc ++ r)).
Proof.
  intros Hstep. revert acc. induction xs as [|x xs IH]; intros acc; simpl.
  - by rewrite app_nil_r.
  - rewrite (Hstep acc x). destruct (step [] x) as [r|e]; simpl; [|done].
    rewrite (IH (acc ++ r)), (IH r).
    destruct (foldM step [] xs) as [q|e]; simpl; [|done].
    by rewrite app_assoc.
Qed.

Lemma annual_year_step_append series param acc year :
  annual_year_step float_sum series param acc year
  = (r ← annual_year_step float_sum series param [] year ; Ok (acc ++ r)).
Proof.
  unfold annual_year_step. rewrite gather_present_float.
  destruct (_ =? 12)%nat; [|by rewrite bind_Ok, app_nil_r].
  destruct (decide (param = "PRECTOTCORR")).
  - rewrite !py_sum_zip_num_float. reflexivity.
  - destruct (omap _ _) as [|x xs]; [reflexivity|].
    rewrite !py_sum_num_float, !bind_Ok, !py_div_int_Ok by done. reflexivity.
Qed.

(** ** Year records *)

Lemma year_record_step_spec_float pd year acc p :
  ∃ acc', year_record_step float_sum float_round pd year acc p = Ok acc'
    ∧ (∀ k, k ≠ p +:+ "_monthly_mean" → k ≠ p +:+ "_annual_total_mm" →
         dict_get k acc' = dict_get k acc)
    ∧ (∀ series x xs,
         pd !! p = Some series →
         omap (present_value series) (year_keys year) = x :: xs →
         dict_get (p +:+ "_monthly_mean") acc'
         = Some (float_round
                   (float_sum (x :: xs) / float_of_nat (length (x :: xs))) 2)
         ∧ (p = "PRECTOTCORR" →
            p +:+ "_annual_total_mm" ≠ p +:+ "_monthly_mean" →
            dict_get (p +:+ "_annual_total_mm") acc'
            = Some (float_round
                      (float_sum (zip_with (fun v d => v * to_float d) (x :: xs)
                                    days_per_month)) 1))).
Proof.
  unfold year_record_step. destruct (pd !! p) as [series|].
  2:{ exists acc. split; [done|]. split; [done|]. intros ??? [=]. }
  rewrite gather_present_float.
  destruct (omap _ _) as [|x xs] eqn:E.
  { exists acc. split; [done|]. split; [done|]. intros s' x xs [= <-]. by rewrite E. }
  change (JNum <$> x :: xs) with (JNum x :: (JNum <$> xs)). cbv iota beta.
  change (JNum x :: (JNum <$> xs)) with (JNum <$> x :: xs).
  rewrite length_fmap.
  destruct (decide (p = "PRECTOTCORR")) as [Hp|Hp];
    rewrite ?py_sum_zip_num_float, ?bind_Ok, py_sum_num_float, bind_Ok, py_div_int_Ok, bind_Ok
      by done.
  - eexists. split; [done|]. split.
    + intros k Hk1 Hk2. by rewrite !dict_get_set_ne.
    + intros s' x' xs' [= <-]. rewrite E. intros [= <- <-].
      split; [apply dict_get_set|]. intros _ Hne.
      rewrite dict_get_set_ne by congruence. apply dict_get_set.
  - eexists. split; [done|]. split.
    + intros k Hk1 Hk2. by rewrite dict_get_set_ne.
    + intros s' x' xs' [= <-]. rewrite E. intros [= <- <-].
      split; [apply dict_get_set | done].
Qed.

(** A year record is always produced: on floats nothing in its loop raises. *)
Lemma year_record_of_total_float pd year :
  is_ok (year_record_of float_sum float_round pd year).
Proof.
  unfold year_record_of.
  destruct (foldM_invariant (year_record_step float_sum float_round pd year)
              (fun _ => True) PARAMETERS []) as (out & Hout & _);
    [done | | by exists out].
  intros acc p _ _.
  destruct (year_record_step_spec_float pd year acc p) as (acc' & -> & _). eauto.
Qed.

(** The monthly mean a year record holds for a processed parameter with at
    least one present month: the float mean of the present values. *)
Lemma year_record_monthly_mean_float pd year param series x xs :
  param ∈ PARAMETERS →
  pd !! param = Some series →
  omap (present_value series) (year_keys year) = x :: xs →
  ∃ rec, year_record_of float_sum float_round pd year = Ok rec
    ∧ dict_get (param +:+ "_monthly_mean") rec
      = Some (float_round
                (float_sum (x :: xs) / float_of_nat (length (x :: xs))) 2).
Proof.
  intros Hin Hpd Hvals. unfold year_record_of.
  apply (foldM_establish _ _ param); [done|].
  intros acc q Hq.
  destruct (year_record_step_spec_float pd year acc q) as (acc' & -> & Hkeep & Hset).
  exists acc'. split; [done|]. split.
  - intros Hacc. destruct (decide (q = param)) as [->|Hne].
    + by apply (Hset series x xs).
    + destruct (labels_fresh param q Hin Hq) as (H1 & H2 & _).
      rewrite Hkeep; [done | by apply H1 | done].
  - intros ->. by apply (Hset series x xs).
Qed.

(** The annual total a year record holds for precipitation: the present
    values, in month order, each multiplied by the table entry at its
    position in the list of present values. *)
Lemma year_record_annual_total_float pd year series x xs :
  pd !! "PRECTOTCORR" = Some series →
  omap (present_value series) (year_keys year) = x :: xs →
  ∃ rec, year_record_of float_sum float_round pd year = Ok rec
    ∧ dict_get "PRECTOTCORR_annual_total_mm" rec
      = Some (float_round
                (float_sum (zip_with (fun v d => v * to_float d) (x :: xs)
                              days_per_month)) 1).
Proof.
  intros Hpd Hvals. unfold year_record_of.
  pose proof precipitation_processed as Hin.
  apply (foldM_establish _ _ "PRECTOTCORR"); [done|].
  intros acc q Hq.
  destruct (year_record_step_spec_float pd year acc q) as (acc' & -> & Hkeep & Hset).
  exists acc'. split; [done|].
  assert (Hhere : q = "PRECTOTCORR" →
    dict_get "PRECTOTCORR_annual_total_mm" acc'
    = Some (float_round
              (float_sum (zip_with (fun v d => v * to_float d) (x :: xs)
                            days_per_month)) 1)).
  { intros ->. by apply (Hset series x xs). }
  split; [|done].
  intros Hacc. destruct (decide (q = "PRECTOTCORR")) as [Heq|Hne]; [auto|].
  destruct (labels_fresh "PRECTOTCORR" q Hin Hq) as (H1 & _ & H3).
  rewrite Hkeep; [done | apply H3 | by apply H1].
Qed.

Lemma yearly_data_lookup_float pd start_year end_year year rec :
  (start_year ≤ year ≤ end_year)%Z →
  year_record_of float_sum float_round pd year = Ok rec →
  ∃ yd, yearly_data_of float_sum float_round pd start_year end_year = Ok yd
        ∧ dict_get (pretty year) yd = Some rec.
Proof.
  intros Hyear Hrec. unfold yearly_data_of.
  apply (foldM_dict_build (year_record_of float_sum float_round pd) pretty).
  - intros y _. apply year_record_of_total_float.
  - apply py_range_elem. lia.
  - intros y _ Heq. by apply (inj pretty).
  - done.
Qed.

End ScriptProperties.

(** ** C7: the sample standard deviation on floats *)

Section StdProperties.

Variable float_sum : list float → float.
Variable libm_pow : float → float → float.

(** C7 (amended).  [_std] returns exactly 0.0 for every list of fewer than
    two values, whatever the element; for two equal floats [x] whose sum
    [x + x] is finite it returns exactly 0.0, provided [sum] adds two equal
    floats from the left, as both of CPython's summations do; for two or
    more floats it is the Bessel-corrected formula evaluated in floats: the
    mean is [sum / n], each deviation is squared by [** 2], their sum is
    divided by [n - 1] and raised by [** 0.5]; so no [ZeroDivisionError]
    and no [TypeError] can occur, the only outcomes that are not a float
    are [OverflowError] (a power out of range) and the complex number of a
    negative base. *)
Theorem C7_std_binary64 :
  _std float_sum libm_pow [] = Ok 0
  ∧ (∀ v : jval, _std float_sum libm_pow [v] = Ok 0)
  ∧ (∀ x : float,
       is_finite (x + x) = true →
       float_sum [x; x] = 0 + x + x →
       float_sum [0; 0] = 0 →
       _std float_sum libm_pow [JNum x; JNum x] = Ok 0)
  ∧ (∀ (x y : float) (l : list float),
       let xs := x :: y :: l in
       let mean := float_sum xs / float_of_nat (length xs) in
       _std float_sum libm_pow (JNum <$> xs)
       = (squares ← try_map (fun v => pow_two libm_pow (v - mean)) xs ;
          pow_half libm_pow (float_sum squares / float_of_nat (length xs - 1)))
       ∧ ∀ e : exn, _std float_sum libm_pow (JNum <$> xs) = Raise e →
                    e = OverflowError ∨ e = ComplexResult).
Proof.
  split; [reflexivity|]. split; [intros v; reflexivity|].
  split; [apply _std_two_equal|].
  intros x y l. cbv zeta. split; [apply _std_num_ge2_float|].
  intros e. rewrite (_std_num_ge2_float float_sum libm_pow x y l). cbv zeta.
  destruct (try_map _ _) as [squares|e'] eqn:Hsq.
  - rewrite bind_Ok. intros [[-> _] | [-> _]]%pow_half_Raise; auto.
  - intros [= ->]. apply try_map_Raise in Hsq as (v & _ & [-> _]%pow_two_Raise).
    by left.
Qed.

End StdProperties.

(** What C7 as the specification words it misses: two equal values whose
    sum overflows give [inf], an infinite value gives [nan], a squared
    deviation out of range raises [OverflowError], and three equal values
    need not give 0. *)
Lemma C7_std_inf_nan_overflow :
  (∀ libm_pow, _std sum_left libm_pow [JNum 1e308; JNum 1e308] = Ok infinity)
  ∧ (∀ libm_pow, _std sum_compensated libm_pow [JNum 1e308; JNum 1e308] = Ok infinity)
  ∧ (∀ libm_pow, _std sum_left libm_pow [JNum infinity; JNum 1] = Ok nan)
  ∧ (∀ libm_pow, _std sum_compensated libm_pow [JNum infinity; JNum 1] = Ok nan)
  ∧ _std sum_left pow_rounded [JNum 1e200; JNum (-1e200)] = Raise OverflowError
  ∧ _std sum_left pow_rounded [JNum 0.1; JNum 0.1; JNum 0.1]
    = Ok 0x1.3988e1409212ep-56.
Proof. repeat split; intros; vm_compute; reflexivity. Qed.

Lemma C7_std_binary64_witness :
  is_finite (2.5 + 2.5) = true
  ∧ sum_left [2.5; 2.5] = 0 + 2.5 + 2.5
  ∧ sum_left [0; 0] = 0
  ∧ _std sum_left pow_rounded [JNum 2.5; JNum 2.5] = Ok 0
  ∧ _std sum_left pow_rounded (JNum <$> [100; 100; 100; 100; 500])
    = Ok 178.88543819998318.
Proof.
  destruct (C7_std_binary64 sum_left pow_rounded) as (_ & _ & Hpair & Hformula).
  split; [reflexivity|]. split; [reflexivity|]. split; [reflexivity|].
  split; [by apply Hpair|].
  destruct (Hformula 100 100 [100; 100; 500]) as [-> _]. reflexivity.
Defined.

(** X10.  With either of CPython's summations and any C library, the
    standard deviation of two equal floats whose sum is finite is exactly
    0.0. *)
Theorem X10_std_two_equal_sums (libm_pow : float → float → float) (x : float) :
  is_finite (x + x) = true →
  _std sum_left libm_pow [JNum x; JNum x] = Ok 0
  ∧ _std sum_compensated libm_pow [JNum x; JNum x] = Ok 0.
Proof.
  intros Hf. split.
  - apply _std_two_equal; [done | apply sum_left_pair | done].
  - apply _std_two_equal; [done | by apply sum_compensated_pair | done].
Qed.

Lemma X10_std_two_equal_sums_witness :
  is_finite (20.015 + 20.015) = true
  ∧ _std sum_left pow_rounded [JNum 20.015; JNum 20.015] = Ok 0
  ∧ _std sum_compensated pow_rounded [JNum 20.015; JNum 20.015] = Ok 0.
Proof.
  split; [reflexivity|]. by apply (X10_std_two_equal_sums pow_rounded 20.015).
Defined.

(** ** C1: a year with eleven present months *)

Section YearlyProperties.

Variable float_sum : list float → float.
Variable float_round : float → nat → float.

(** C1.  For every processed parameter of the record and every year of the
    range in which one calendar month [m0] is missing (key absent, [null]
    or sentinel) and the other eleven carry numbers: the year adds nothing
    to the list the annual summary reduces (its step leaves the list as it
    is, so the list is the one built from the years before followed by the
    one built from the years after), while the yearly series has a record
    for that year holding, under the parameter's monthly-mean key, the mean
    of the eleven numbers as floats compute it, [sum] of the eleven in
    calendar order divided by 11, rounded to 2 decimals. *)
Theorem C1_coverage_asymmetry
    (params_data : gmap string (gmap string jval)) (series : gmap string jval)
    (param : string) (start_year end_year year m0 : Z) (f : Z → float) :
  param ∈ PARAMETERS →
  params_data !! param = Some series →
  (start_year ≤ year ≤ end_year)%Z →
  (1 ≤ m0 ≤ 12)%Z →
  present_value series (period_key year m0) = None →
  (∀ m, (1 ≤ m ≤ 12)%Z → m ≠ m0 →
        series !! period_key year m = Some (JNum (f m)) ∧ (f m =? -999) = false) →
  (∀ yearly_means,
     annual_year_step float_sum series param yearly_means year = Ok yearly_means)
  ∧ annual_yearly_means float_sum series param start_year end_year
    = (before ← annual_yearly_means float_sum series param start_year (year - 1) ;
       after ← annual_yearly_means float_sum series param (year + 1) end_year ;
       Ok (before ++ after))
  ∧ ∃ yearly year_record,
      yearly_data_of float_sum float_round params_data start_year end_year = Ok yearly
      ∧ dict_get (pretty year) yearly = Some year_record
      ∧ dict_get (param +:+ "_monthly_mean") year_record
        = Some (float_round
                  (float_sum (f <$> filter (fun m => m ≠ m0) (seqZ 1 12)) / 11) 2).
Proof.
  intros Hparam Hpd Hyear Hm0 Hmiss Hpres.
  pose proof (year_values_all_but_one series year m0 f Hmiss Hpres) as Hvals.
  pose proof (eleven_of_twelve m0 Hm0) as Hlen.
  assert (Hstep : ∀ acc, annual_year_step float_sum series param acc year = Ok acc).
  { intros acc. unfold annual_year_step.
    rewrite gather_present_float, Hvals, !length_fmap, Hlen. done. }
  split; [done|]. split.
  - unfold annual_yearly_means.
    rewrite (py_range_split start_year (end_year + 1) year) by lia.
    rewrite foldM_app. replace (year - 1 + 1)%Z with year by lia.
    destruct (foldM _ [] (py_range start_year year)) as [before|e]; simpl; [|done].
    rewrite Hstep. simpl.
    apply foldM_append_acc, annual_year_step_append.
  - destruct (filter _ _) as [|m ms] eqn:E; [discriminate Hlen|].
    rewrite fmap_cons in Hvals.
    destruct (year_record_monthly_mean_float float_sum float_round params_data year param
                series _ _ Hparam Hpd Hvals) as (rec & Hrec & Hget).
    destruct (yearly_data_lookup_float float_sum float_round params_data start_year end_year
                year rec Hyear Hrec) as (yd & Hyd & Hlook).
    exists yd, rec. split; [done|]. split; [done|].
    rewrite Hget. do 3 f_equal.
    cbn [length]. rewrite length_fmap.
    simpl in Hlen. injection Hlen as ->. reflexivity.
Qed.

(** X12.  When the present precipitation months of a year are exactly
    January up to some month [k], the year's [PRECTOTCORR_annual_total_mm]
    in the yearly series is [sum] of the products of each present value
    with its own month's day count, in calendar order, rounded to 1
    decimal. *)
Theorem X12_leading_months_total
    (params_data : gmap string (gmap string jval)) (series : gmap string jval)
    (start_year end_year year k : Z) (f : Z → float) :
  params_data !! "PRECTOTCORR" = Some series →
  (start_year ≤ year ≤ end_year)%Z →
  (1 ≤ k ≤ 12)%Z →
  (∀ m, (1 ≤ m ≤ k)%Z →
        series !! period_key year m = Some (JNum (f m)) ∧ (f m =? -999) = false) →
  (∀ m, (k < m ≤ 12)%Z → present_value series (period_key year m) = None) →
  ∃ yearly year_record,
    yearly_data_of float_sum float_round params_data start_year end_year = Ok yearly
    ∧ dict_get (pretty year) yearly = Some year_record
    ∧ dict_get "PRECTOTCORR_annual_total_mm" year_record
      = Some (float_round
                (float_sum (zip_with (fun m d => f m * to_float d)
                              (seqZ 1 k) days_per_month)) 1).
Proof.
  intros Hpd Hyear Hk Hpres Hmiss.
  assert (Hvals : omap (present_value series) (year_keys year) = f <$> seqZ 1 k).
  { rewrite (year_values_where_float (fun m => (m ≤ k)%Z) series year f).
    - f_equal. apply twelve_cases in Hk.
      repeat destruct Hk as [-> | Hk]; try subst k; reflexivity.
    - intros m Hm Hle. apply Hpres. lia.
    - intros m Hm Hgt. apply Hmiss. lia. }
  destruct (seqZ 1 k) as [|m ms] eqn:E.
  { apply (f_equal length) in E. rewrite length_seqZ in E. simpl in E. lia. }
  rewrite fmap_cons in Hvals.
  destruct (year_record_annual_total_float float_sum float_round params_data year
              series _ _ Hpd Hvals) as (rec & Hrec & Hget).
  destruct (yearly_data_lookup_float float_sum float_round params_data start_year end_year
              year rec Hyear Hrec) as (yd & Hyd & Hlook).
  exists yd, rec. split; [done|]. split; [done|].
  rewrite Hget. do 3 f_equal.
  rewrite <- fmap_cons. generalize (m :: ms). generalize days_per_month.
  intros ws l. revert ws. induction l as [|a l IH]; intros [|w ws]; csimpl; try done.
  by rewrite IH.
Qed.

End YearlyProperties.

Lemma months_from_lookup_float (first year m : Z) (v : float) :
  (first ≤ m ≤ 12)%Z → months_from first year v !! period_key year m = Some (JNum v).
Proof.
  intros Hm. unfold months_from.
  apply (elem_of_list_to_map_1' (M := gmap string)).
  - intros y Hy. apply list_elem_of_fmap in Hy as (m' & [= Hkey ->] & _). done.
  - apply list_elem_of_fmap. exists m. split; [done|]. apply py_range_elem. lia.
Qed.

(** Eleven months at 20.015 give 20.01, where the exact mean rounds to
    20.02. *)
Lemma C1_coverage_asymmetry_witness :
  "T2M" ∈ PARAMETERS
  ∧ present_value (months_from 2 2021 20.015) (period_key 2021 1) = None
  ∧ (∀ m, (1 ≤ m ≤ 12)%Z → m ≠ 1%Z →
          months_from 2 2021 20.015 !! period_key 2021 m = Some (JNum 20.015)
          ∧ (20.015 =? -999) = false)
  ∧ (∀ yearly_means,
       annual_year_step sum_left (months_from 2 2021 20.015) "T2M" yearly_means 2021
       = Ok yearly_means)
  ∧ ∃ yearly year_record,
      yearly_data_of sum_left round_decimal {[ "T2M" := months_from 2 2021 20.015 ]}
        2021 2021 = Ok yearly
      ∧ dict_get (pretty 2021%Z) yearly = Some year_record
      ∧ dict_get ("T2M" +:+ "_monthly_mean") year_record = Some 20.01.
Proof.
  assert (H1 : "T2M" ∈ PARAMETERS) by (unfold PARAMETERS; set_solver).
  assert (H2 : present_value (months_from 2 2021 20.015) (period_key 2021 1) = None)
    by reflexivity.
  assert (H3 : ∀ m, (1 ≤ m ≤ 12)%Z → m ≠ 1%Z →
     months_from 2 2021 20.015 !! period_key 2021 m = Some (JNum 20.015)
     ∧ (20.015 =? -999) = false).
  { intros m Hm Hne. split; [apply months_from_lookup_float; lia | reflexivity]. }
  pose proof (C1_coverage_asymmetry sum_left round_decimal
                {[ "T2M" := months_from 2 2021 20.015 ]}
                (months_from 2 2021 20.015) "T2M" 2021 2021 2021 1 (fun _ => 20.015)
                H1 (lookup_singleton_eq _ _) ltac:(lia) ltac:(lia) H2 H3)
    as (Ha & _ & Hb).
  split; [exact H1|]. split; [exact H2|]. split; [exact H3|].
  split; [exact Ha | exact Hb].
Defined.

(** What C1 as the specification words it misses: the mean is the float
    mean.  Eleven months at 0.095, a float just above 95/1000, give 0.09
    with either of CPython's summations, where the arithmetic mean of the
    eleven values rounds to 0.10. *)
Lemma C1_float_mean_is_not_exact_mean :
  Prim2SF 0.095 = S754_finite false 6845471433603154 (-56)
  ∧ yearly_data_of sum_left round_decimal
      {[ "T2M" := months_from 2 2021 0.095 ]} 2021 2021
    = Ok [("2021", [("T2M_monthly_mean", 0.09)])]
  ∧ yearly_data_of sum_compensated round_decimal
      {[ "T2M" := months_from 2 2021 0.095 ]} 2021 2021
    = Ok [("2021", [("T2M_monthly_mean", 0.09)])]
  ∧ (let x := (6845471433603154 / 2 ^ 56)%R in
     py_round (sum_R (replicate 11 x) / 11) 2 = (1 / 10)%R).
Proof.
  split; [reflexivity|]. split; [vm_compute; reflexivity|].
  split; [vm_compute; reflexivity|].
  intros x.
  replace (sum_R (replicate 11 x) / 11)%R with x by (simpl; lra).
  rewrite (py_round_near x 2 10) by (unfold x; simpl; lra).
  simpl. lra.
Qed.

Lemma months_through_lookup (last year m : Z) (v : float) :
  (1 ≤ m ≤ last)%Z → months_through last year v !! period_key year m = Some (JNum v).
Proof.
  intros Hm. unfold months_through.
  apply (elem_of_list_to_map_1' (M := gmap string)).
  - intros y Hy. apply list_elem_of_fmap in Hy as (m' & [= Hkey ->] & _). done.
  - apply list_elem_of_fmap. exists m. split; [done|]. apply py_range_elem. lia.
Qed.

(** January to May at 0.44 mm/day give 66.5, where the exact total 66.594
    rounds to 66.6. *)
Lemma X12_leading_months_total_witness :
  (∀ m, (1 ≤ m ≤ 5)%Z →
        months_through 5 2021 0.44 !! period_key 2021 m = Some (JNum 0.44)
        ∧ (0.44 =? -999) = false)
  ∧ (∀ m, (5 < m ≤ 12)%Z →
          present_value (months_through 5 2021 0.44) (period_key 2021 m) = None)
  ∧ ∃ yearly year_record,
      yearly_data_of sum_left round_decimal
        {[ "PRECTOTCORR" := months_through 5 2021 0.44 ]} 2021 2021 = Ok yearly
      ∧ dict_get (pretty 2021%Z) yearly = Some year_record
      ∧ dict_get "PRECTOTCORR_annual_total_mm" year_record = Some 66.5.
Proof.
  assert (H1 : ∀ m, (1 ≤ m ≤ 5)%Z →
     months_through 5 2021 0.44 !! period_key 2021 m = Some (JNum 0.44)
     ∧ (0.44 =? -999) = false).
  { intros m Hm. split; [by apply months_through_lookup | reflexivity]. }
  assert (H2 : ∀ m, (5 < m ≤ 12)%Z →
     present_value (months_through 5 2021 0.44) (period_key 2021 m) = None).
  { intros m Hm.
    assert (m = 6 ∨ m = 7 ∨ m = 8 ∨ m = 9 ∨ m = 10 ∨ m = 11 ∨ m = 12)%Z as Hc by lia.
    repeat destruct Hc as [-> | Hc]; try subst m; reflexivity. }
  split; [exact H1|]. split; [exact H2|].
  exact (X12_leading_months_total sum_left round_decimal
           {[ "PRECTOTCORR" := months_through 5 2021 0.44 ]}
           (months_through 5 2021 0.44) 2021 2021 2021 5 (fun _ => 0.44)
           (lookup_singleton_eq _ _) ltac:(lia) ltac:(lia) H1 H2).
Defined.
